(** * Layout-App: the geometry core of [src/utils/geometry.js]

    A shallow embedding of the layout generator, the layout validator, the
    grid sampler, the grid snapper and the heat field generator, together
    with the properties the specification states about them.

    Conventions.
    - A JavaScript number is an IEEE-754 binary64 value: [float].  Quantities
      that the program only ever uses as integers (the generator's block
      counter, [maxBlocks], the seed and the captured state of the
      pseudo-random generator) are kept in [Z], with the 32-bit conversions
      of the bit operators written out.
    - [null] and [undefined] are [None] wherever the program treats the two
      alike (the tests [!x], the defaults of parameters).  The site of the
      validator is [null] or a feature, as the application holds it in its
      state; there [None] is [null].
    - The turf library and the [Math] functions without a binary64 primitive
      are interfaces ([Turf], [JSMath]); the program is embedded over them.
    - A closure with a captured mutable variable is a cell of a store. *)

From stdpp Require Import base list.
From Stdlib Require Import ZArith Lia String Floats Uint63.

Set Warnings "-inexact-float,-register-all".

Local Open Scope Z_scope.
Local Open Scope list_scope.

(* ===================================================================== *)
(** ** JavaScript numbers *)

Module JS.

(** [ToInt32] and [ToUint32] of an integral number. *)
Definition ToUint32 (z : Z) : Z := z mod 2 ^ 32.

Definition ToInt32 (z : Z) : Z :=
  let u := z mod 2 ^ 32 in
  if 2 ^ 31 <=? u then u - 2 ^ 32 else u.

(** [x ^ y], [x | y], [x >>> n] and [Math.imul(x, y)]. *)
Definition xor (x y : Z) : Z := Z.lxor (ToInt32 x) (ToInt32 y).
Definition or (x y : Z) : Z := Z.lor (ToInt32 x) (ToInt32 y).
Definition ushr (x n : Z) : Z := Z.shiftr (ToUint32 x) (n mod 32).
Definition imul (x y : Z) : Z := ToInt32 (ToInt32 x * ToInt32 y).

(** The number whose value is the unsigned 32-bit integer [u]. *)
Definition of_uint32 (u : Z) : float := PrimFloat.of_uint63 (Uint63.of_Z u).

(** [Math.max(a, b)] and [Math.min(a, b)]: a NaN argument gives NaN, and
    [+0] is larger than [-0]. *)
Definition max2 (a b : float) : float :=
  if (PrimFloat.is_nan a || PrimFloat.is_nan b)%bool then PrimFloat.nan
  else if (a <? b)%float then b
  else if (b <? a)%float then a
  else if PrimFloat.Leibniz.eqb a PrimFloat.neg_zero then b else a.

Definition min2 (a b : float) : float :=
  if (PrimFloat.is_nan a || PrimFloat.is_nan b)%bool then PrimFloat.nan
  else if (a <? b)%float then a
  else if (b <? a)%float then b
  else if PrimFloat.Leibniz.eqb a PrimFloat.neg_zero then a else b.

(** [Math.max(...xs)] and [Math.min(...xs)]; on no argument they are
    [-Infinity] and [Infinity]. *)
Definition max (xs : list float) : float :=
  fold_left max2 xs PrimFloat.neg_infinity.
Definition min (xs : list float) : float :=
  fold_left min2 xs PrimFloat.infinity.

(** [Math.PI]. *)
Definition PI : float := 0x1.921fb54442d18p+1%float.

(** What [JSON.parse(JSON.stringify(x))] makes of a number: NaN and the
    infinities are written as [null], negative zero is written as [0],
    and every other number is read back unchanged. *)
Definition json_number (x : float) : option float :=
  if (PrimFloat.is_nan x || PrimFloat.is_infinity x)%bool then None
  else if PrimFloat.Leibniz.eqb x PrimFloat.neg_zero then Some PrimFloat.zero
  else Some x.

(** The numbers a JSON round trip leaves alone. *)
Definition json_exact (x : float) : bool :=
  (negb (PrimFloat.is_nan x || PrimFloat.is_infinity x)
   && negb (PrimFloat.Leibniz.eqb x PrimFloat.neg_zero))%bool.

(** [ToNumber] of an array entry: a missing entry is [undefined] and
    converts to NaN, [null] converts to [0]. *)
Definition ToNumber (v : option (option float)) : float :=
  match v with
  | None => PrimFloat.nan
  | Some None => PrimFloat.zero
  | Some (Some x) => x
  end.

(** What is thrown. *)
Inductive Error := TypeError | LibraryError.

(** A computation that returns or throws. *)
Inductive Exn (A : Type) :=
| Ok (a : A)
| Throw (e : Error).
Arguments Ok {A} a.
Arguments Throw {A} e.

Definition ebind {A B} (m : Exn A) (k : A -> Exn B) : Exn B :=
  match m with
  | Ok a => k a
  | Throw e => Throw e
  end.

End JS.

Notation "'try' x <- m 'in' k" := (JS.ebind m (fun x => k))
  (at level 10, x name, m at level 100, k at level 200).

(* ===================================================================== *)
(** ** The store of captured variables *)

(** [mulberry32(a)] returns a closure over the mutable variable [a].  The
    variable lives in a store cell; the closure is the address of the cell. *)
Definition Store := list Z.
Definition St (A : Type) : Type := Store -> A * Store.

Definition ret {A} (a : A) : St A := fun s => (a, s).
Definition bind {A B} (m : St A) (k : A -> St B) : St B :=
  fun s => let (a, s') := m s in k a s'.

Notation "'let*' x := m 'in' k" := (bind m (fun x => k))
  (at level 10, x name, m at level 100, k at level 200).

Definition Rng := nat.

(** One call of the closure on the captured value [a]: the new captured value
    and the number returned.
<<
    let t = (a += 0x6d2b79f5);
    t = Math.imul(t ^ (t >>> 15), t | 1);
    t ^= t + Math.imul(t ^ (t >>> 7), t | 61);
    return ((t ^ (t >>> 14)) >>> 0) / 4294967296;
>>
    [a += ...] is an addition of numbers, not of 32-bit integers: the captured
    value grows, and only the bit operators reduce it modulo [2^32].  Seeds
    are integers, and the captured value is kept exactly: this is the
    program's binary64 addition as long as the value stays below [2^53] in
    absolute value, which is more than [2^21] draws away from every seed of
    32 bits. *)
Definition mulberry32_step (a : Z) : Z * float :=
  let a := a + 0x6d2b79f5 in
  let t := a in
  let t := JS.imul (JS.xor t (JS.ushr t 15)) (JS.or t 1) in
  let t := JS.xor t (t + JS.imul (JS.xor t (JS.ushr t 7)) (JS.or t 61)) in
  (a, (JS.of_uint32 (JS.ushr (JS.xor t (JS.ushr t 14)) 0) / 4294967296)%float).

Definition mulberry32 (a : Z) : St Rng :=
  fun s => (List.length s, s ++ [a]).

Definition call_rng (r : Rng) : St float :=
  fun s =>
    let (a, x) := mulberry32_step (default 0 (s !! r)) in
    (x, <[r := a]> s).

(* ===================================================================== *)
(** ** GeoJSON features *)

(** The geometry of a feature, tagged by its [type].  A position is the array
    [[lng, lat]] (possibly longer).  The type of the entries is a parameter:
    [float] for a feature in memory, [option float] for what a JSON round
    trip returns, where an entry can be [null]. *)
Inductive Geometry (N : Type) : Type :=
| Point (coordinates : list N)
| MultiPoint (coordinates : list (list N))
| LineString (coordinates : list (list N))
| MultiLineString (coordinates : list (list (list N)))
| Polygon (coordinates : list (list (list N)))
| MultiPolygon (coordinates : list (list (list (list N))))
| GeometryCollection (geometries : list (Geometry N)).

Arguments Point {N} _.
Arguments MultiPoint {N} _.
Arguments LineString {N} _.
Arguments MultiLineString {N} _.
Arguments Polygon {N} _.
Arguments MultiPolygon {N} _.
Arguments GeometryCollection {N} _.

(** A value of the property bag. *)
Inductive PropValue (N : Type) : Type :=
| PStr (s : string)
| PNum (n : N).
Arguments PStr {N} s.
Arguments PNum {N} n.

Record GFeature (N : Type) : Type := mkFeature {
  geometry : Geometry N;
  properties : list (string * PropValue N)
}.
Arguments mkFeature {N} _ _.
Arguments geometry {N} _.
Arguments properties {N} _.

Definition Feature := GFeature float.
Definition FeatureCollection := list Feature.

(** [g.type]. *)
Definition geometry_type {N} (g : Geometry N) : string :=
  match g with
  | Point _ => "Point"
  | MultiPoint _ => "MultiPoint"
  | LineString _ => "LineString"
  | MultiLineString _ => "MultiLineString"
  | Polygon _ => "Polygon"
  | MultiPolygon _ => "MultiPolygon"
  | GeometryCollection _ => "GeometryCollection"
  end.

(** The same geometry with [f] applied to every number. *)
Fixpoint geometry_map {N M} (f : N -> M) (g : Geometry N) : Geometry M :=
  match g with
  | Point c => Point (map f c)
  | MultiPoint cs => MultiPoint (map (map f) cs)
  | LineString cs => LineString (map (map f) cs)
  | MultiLineString ls => MultiLineString (map (map (map f)) ls)
  | Polygon rs => Polygon (map (map (map f)) rs)
  | MultiPolygon ps => MultiPolygon (map (map (map (map f))) ps)
  | GeometryCollection gs => GeometryCollection (map (geometry_map f) gs)
  end.

Definition prop_map {N M} (f : N -> M) (v : PropValue N) : PropValue M :=
  match v with
  | PStr s => PStr s
  | PNum n => PNum (f n)
  end.

Definition feature_map {N M} (f : N -> M) (x : GFeature N) : GFeature M :=
  mkFeature (geometry_map f (geometry x))
            (map (fun kv => (fst kv, prop_map f (snd kv))) (properties x)).

(** [JSON.parse(JSON.stringify(feature))]. *)
Definition json_clone (x : Feature) : GFeature (option float) :=
  feature_map JS.json_number x.

(** Every number of the geometry satisfies [p]. *)
Fixpoint geometry_forallb {N} (p : N -> bool) (g : Geometry N) : bool :=
  match g with
  | Point c => forallb p c
  | MultiPoint cs => forallb (forallb p) cs
  | LineString cs => forallb (forallb p) cs
  | MultiLineString ls => forallb (forallb (forallb p)) ls
  | Polygon rs => forallb (forallb (forallb p)) rs
  | MultiPolygon ps => forallb (forallb (forallb (forallb p))) ps
  | GeometryCollection gs => forallb (geometry_forallb p) gs
  end.

Definition feature_forallb {N} (p : N -> bool) (x : GFeature N) : bool :=
  (geometry_forallb p (geometry x)
   && forallb (fun kv => match snd kv with PStr _ => true | PNum n => p n end)
              (properties x))%bool.

(** The features whose numbers are all finite and not negative zero: the
    ones that GeoJSON text can denote and give back. *)
Definition json_safe (x : Feature) : bool := feature_forallb JS.json_exact x.

(** A copy of a geometry: of the same type, with arrays of the same lengths
    at every level, and with [R] between every number of the copy and the
    number in its place in the original. *)
Fixpoint same_geometry {N M} (R : N -> M -> Prop)
    (g' : Geometry N) (g : Geometry M) {struct g'} : Prop :=
  match g', g with
  | Point c', Point c => Forall2 R c' c
  | MultiPoint cs', MultiPoint cs => Forall2 (Forall2 R) cs' cs
  | LineString cs', LineString cs => Forall2 (Forall2 R) cs' cs
  | MultiLineString ls', MultiLineString ls =>
      Forall2 (Forall2 (Forall2 R)) ls' ls
  | Polygon rs', Polygon rs => Forall2 (Forall2 (Forall2 R)) rs' rs
  | MultiPolygon ps', MultiPolygon ps =>
      Forall2 (Forall2 (Forall2 (Forall2 R))) ps' ps
  | GeometryCollection gs', GeometryCollection gs =>
      (fix all (l' : list (Geometry N)) (l : list (Geometry M)) : Prop :=
         match l', l with
         | [], [] => True
         | x' :: l', x :: l => same_geometry R x' x /\ all l' l
         | _, _ => False
         end) gs' gs
  | _, _ => False
  end.

Definition same_value {N M} (R : N -> M -> Prop)
    (v' : PropValue N) (v : PropValue M) : Prop :=
  match v', v with
  | PStr s', PStr s => s' = s
  | PNum n', PNum n => R n' n
  | _, _ => False
  end.

(** A copy of a feature: a copy of its geometry, and the same properties in
    the same order. *)
Definition same_feature {N M} (R : N -> M -> Prop)
    (x' : GFeature N) (x : GFeature M) : Prop :=
  same_geometry R (geometry x') (geometry x)
  /\ Forall2 (fun kv' kv => fst kv' = fst kv /\ same_value R (snd kv') (snd kv))
             (properties x') (properties x).

(** [turf.point], [turf.polygon], [turf.feature]. *)
Definition turf_point (c : list float) : Feature := mkFeature (Point c) [].
Definition turf_polygon (rings : list (list (list float)))
    (props : list (string * PropValue float)) : Feature :=
  mkFeature (Polygon rings) props.
Definition turf_feature (g : Geometry float)
    (props : list (string * PropValue float)) : Feature :=
  mkFeature g props.

(** [pt.geometry.coordinates] of a point feature. *)
Definition point_coordinates (pt : Feature) : list float :=
  match geometry pt with
  | Point c => c
  | _ => []
  end.

(** A bounding box [[west, south, east, north]]. *)
Definition BBox : Type := float * float * float * float.

(* ===================================================================== *)
(** ** The libraries the program calls *)

(** The functions of [Math] that have no binary64 primitive. *)
Class JSMath := {
  Math_hypot : float -> float -> float;
  Math_atan2 : float -> float -> float;
  Math_round : float -> float
}.

(** The functions of [@turf/turf] the program calls, on features that are
    there.  Distances are in kilometres, bearings in degrees.
    - [buffer] is [None] when turf returns [undefined], which it does when the
      buffered geometry is empty (a polygon shrunk away).
    - [intersect] is [None] when turf returns [null]: no common area.
    - [booleanPointInPolygon pt poly ignoreBoundary]: turf's option
      [ignoreBoundary] is [false] unless the caller passes it; with [false] a
      point on the boundary of the polygon counts as inside. *)
Class Turf := {
  destination : Feature -> float -> float -> Feature;
  bbox : Feature -> BBox;
  pointGrid : BBox -> float -> list Feature;
  squareGrid : BBox -> float -> list Feature;
  booleanPointInPolygon : Feature -> Feature -> bool -> bool;
  booleanWithin : Feature -> Feature -> bool;
  booleanIntersects : Feature -> Feature -> bool;
  buffer : Feature -> float -> option Feature;
  intersect : Feature -> Feature -> option Feature;
  area : Feature -> float;
  centroid : Feature -> Feature;
  center : Feature -> Feature;
  circle : Feature -> float -> Z -> Feature;
  distance : Feature -> Feature -> float
}.

(* ===================================================================== *)
(** ** The program *)

(** A catalog entry, as far as the generator reads it: [{id, w, h}]. *)
Record ProcessType := mkType {
  type_id : string;
  type_w : float;
  type_h : float
}.

(** A validation issue: [{kind: "clash", a, b, area, geom}],
    [{kind: "aisle", a, b, geom}], [{kind: "boundary", a, geom}] and
    [{kind: "turning", geom}]. *)
Inductive Issue :=
| Clash (a b : nat) (area : float) (geom : Feature)
| Aisle (a b : nat) (geom : Feature)
| Boundary (a : nat) (geom : Feature)
| Turning (geom : Feature).

Definition is_clash (i : Issue) : bool :=
  match i with Clash _ _ _ _ => true | _ => false end.
Definition is_aisle (i : Issue) : bool :=
  match i with Aisle _ _ _ => true | _ => false end.

(** How the body of a loop ends: with the next iteration or with a [return]. *)
Inductive Flow (S R : Type) :=
| Next (s : S)
| Return (r : R).
Arguments Next {S R} s.
Arguments Return {S R} r.

(** [x[i]] of an array of numbers. *)
Definition at_index (x : list float) (i : nat) : float :=
  default PrimFloat.nan (x !! i).

(** [x[i]] of an array read back from JSON, kept as an entry of a new array:
    a missing entry is kept as [null], the way JSON writes it. *)
Definition entry (x : list (option float)) (i : nat) : option float :=
  mjoin (x !! i).

Definition metersToKm (m : float) : float := (m / 1000)%float.
Definition kmToMeters (km : float) : float := (km * 1000)%float.

(** [maxBlocks && count >= maxBlocks]: [undefined] and [0] are falsy. *)
Definition cap_reached (maxBlocks : option Z) (count : Z) : bool :=
  match maxBlocks with
  | None => false
  | Some m => (negb (m =? 0) && (m <=? count))%bool
  end.

Section Program.

Context {math : JSMath} {turf : Turf}.

Local Open Scope float_scope.

(** *** Rectangle builder *)

Definition move (pt : Feature) (distM bearingDeg : float) : Feature :=
  destination pt (distM / 1000) bearingDeg.

Definition buildRect (centerLngLat : list float)
    (width height rotationDeg : float)
    (props : list (string * PropValue float)) : Feature :=
  let cx := at_index centerLngLat 0 in
  let cy := at_index centerLngLat 1 in
  let center := turf_point [cx; cy] in
  let halfW := width / 2 in
  let halfH := height / 2 in
  let TL := move (move center halfW rotationDeg) halfH (rotationDeg + 90) in
  let TR := move (move center halfW rotationDeg) (- halfH) (rotationDeg + 90) in
  let BR := move (move center (- halfW) rotationDeg) (- halfH) (rotationDeg + 90) in
  let BL := move (move center (- halfW) rotationDeg) halfH (rotationDeg + 90) in
  let coords := map point_coordinates [TL; TR; BR; BL; TL] in
  turf_polygon [coords] props.

(** *** Grid sampler *)

Definition gridCenters (sitePoly : Feature) (stepMeters : float)
    : list Feature :=
  let box := bbox sitePoly in
  let stepKm := metersToKm stepMeters in
  let grid := pointGrid box stepKm in
  List.filter (fun pt => booleanPointInPolygon pt sitePoly false) grid.

(** *** Grid snapper *)

Definition snapLngLat (c : list (option float)) (spacingM : float)
    (origin : option (list float)) : list float :=
  let origin := default [0; 0] origin in
  let lng := JS.ToNumber (c !! 0%nat) in
  let lat := JS.ToNumber (c !! 1%nat) in
  let o0 := at_index origin 0 in
  let o1 := at_index origin 1 in
  let originPt := turf_point origin in
  let north := distance originPt (turf_point [o0; o1 + 0.01]) in
  let east := distance originPt (turf_point [o0 + 0.01; o1]) in
  let mPerDegLat := kmToMeters north / 0.01 in
  let mPerDegLng := kmToMeters east / 0.01 in
  let x := (lng - o0) * mPerDegLng in
  let y := (lat - o1) * mPerDegLat in
  let sx := Math_round (x / spacingM) * spacingM in
  let sy := Math_round (y / spacingM) * spacingM in
  let snappedLng := o0 + sx / mPerDegLng in
  let snappedLat := o1 + sy / mPerDegLat in
  [snappedLng; snappedLat].

(** The callback of [linear.map((c, i) => ...)].  [prev] is read from
    [linear], the ring as it was before snapping. *)
Definition snap_vertex (spacingM : float) (origin : list float)
    (orthogonal : bool) (linear : list (list (option float)))
    (i : nat) (c : list (option float)) : list (option float) :=
  let snapped := snapLngLat c spacingM (Some origin) in
  if (negb orthogonal || Nat.eqb i 0)%bool then map Some snapped
  else
    let prev := default [] (linear !! (i - 1)%nat) in
    let dx := at_index snapped 0 - JS.ToNumber (prev !! 0%nat) in
    let dy := at_index snapped 1 - JS.ToNumber (prev !! 1%nat) in
    if PrimFloat.abs dy <? PrimFloat.abs dx
    then [Some (at_index snapped 0); entry prev 1]
    else [entry prev 0; Some (at_index snapped 1)].

Definition snap_rings (spacingM : float) (origin : list float)
    (orthogonal : bool) (rings : list (list (list (list (option float)))))
    : list (list (list (list (option float)))) :=
  map (fun ring =>
         map (fun linear =>
                imap (snap_vertex spacingM origin orthogonal linear) linear)
             ring)
      rings.

Definition snapFeatureToGrid (feature : Feature) (spacingM : float)
    (origin : option (list float)) (orthogonal : option bool)
    : GFeature (option float) :=
  let origin := default [0; 0] origin in
  let orthogonal := default false orthogonal in
  let f := json_clone feature in
  match geometry f with
  | Polygon coordinates =>
      let newRings := snap_rings spacingM origin orthogonal [coordinates] in
      mkFeature (Polygon (default [] (newRings !! 0%nat))) (properties f)
  | MultiPolygon coordinates =>
      let newRings := snap_rings spacingM origin orthogonal coordinates in
      mkFeature (MultiPolygon newRings) (properties f)
  | _ => f
  end.

(** *** Layout generator *)

Definition is_GeometryCollection (x : Feature) : bool :=
  match geometry x with
  | GeometryCollection _ => true
  | _ => false
  end.

(** The body of the inner loop up to [out.push(rect)]: the rectangle that
    is pushed, or [None] where the body ends in [continue]. *)
Definition place (sitePolygon : Feature) (aisleWidth rotation jitter : float)
    (rng : Rng) (pt : Feature) (t : ProcessType) : St (option Feature) :=
  let center := point_coordinates pt in
  let* r1 := call_rng rng in
  let jw := (r1 - 0.5) * jitter in
  let* r2 := call_rng rng in
  let jh := (r2 - 0.5) * jitter in
  let jCenter :=
    destination (turf_point center) (Math_hypot jw jh / 1000)
                (Math_atan2 jw jh * 180 / JS.PI) in
  let rect :=
    buildRect (point_coordinates jCenter) (type_w t) (type_h t) rotation
              [("role"%string, PStr "block"); ("type"%string, PStr (type_id t))] in
  if negb (booleanWithin rect sitePolygon) then ret None
  else
    match buffer sitePolygon (- aisleWidth / 2 / 1000) with
    | None => ret None
    | Some inset =>
        if is_GeometryCollection inset then ret None
        else if negb (booleanWithin rect inset) then ret None
        else ret (Some rect)
    end.

(** [for (const t of types) { ... }] on the state [(out, count)]. *)
Fixpoint types_loop (sitePolygon : Feature)
    (aisleWidth rotation jitter : float) (maxBlocks : option Z)
    (rng : Rng) (pt : Feature) (ts : list ProcessType)
    (out : list Feature) (count : Z)
    : St (Flow (list Feature * Z) FeatureCollection) :=
  match ts with
  | [] => ret (Next (out, count))
  | t :: ts' =>
      let* r := place sitePolygon aisleWidth rotation jitter rng pt t in
      match r with
      | None =>
          types_loop sitePolygon aisleWidth rotation jitter maxBlocks
                     rng pt ts' out count
      | Some rect =>
          let out := out ++ [rect] in
          let count := (count + 1)%Z in
          if cap_reached maxBlocks count then ret (Return out)
          else types_loop sitePolygon aisleWidth rotation jitter maxBlocks
                          rng pt ts' out count
      end
  end.

(** [for (const pt of centers) { ... }] and the final [return]. *)
Fixpoint centers_loop (sitePolygon : Feature)
    (aisleWidth rotation jitter : float) (maxBlocks : option Z)
    (rng : Rng) (types : list ProcessType) (centers : list Feature)
    (out : list Feature) (count : Z) : St FeatureCollection :=
  match centers with
  | [] => ret out
  | pt :: centers' =>
      let* f := types_loop sitePolygon aisleWidth rotation jitter maxBlocks
                           rng pt types out count in
      match f with
      | Return r => ret r
      | Next (out, count) =>
          centers_loop sitePolygon aisleWidth rotation jitter maxBlocks
                       rng types centers' out count
      end
  end.

Definition generateBlocks (sitePolygon : option Feature)
    (types : list ProcessType) (aisleWidth rotation : float)
    (seed : option Z) (jitter : float) (maxBlocks : option Z)
    : St FeatureCollection :=
  match sitePolygon with
  | None => ret []
  | Some site =>
      let* rng := mulberry32 (default 1%Z seed) in
      let maxTypeW := JS.max (map type_w types) in
      let step := JS.max [5; maxTypeW + aisleWidth] in
      let centers := gridCenters site step in
      centers_loop site aisleWidth rotation jitter maxBlocks rng types
                   centers [] 0%Z
  end.

(** *** Layout validator *)

(** A value handed to turf where a feature is required: turf reads a
    property of it, which on [undefined] is a [TypeError]. *)
Definition required (x : option Feature) : JS.Exn Feature :=
  match x with
  | Some f => JS.Ok f
  | None => JS.Throw JS.TypeError
  end.

(** (1) Clash detection: the body of the two loops at [(i, j)]. *)
Definition clash_pair (i j : nat) (a b : Feature) : list Issue :=
  if booleanIntersects a b then
    match intersect a b with
    | Some inter => [Clash i j (area inter) inter]
    | None => []
    end
  else [].

(** [for (let j = i + 1; ...)], with [rest] the features from [j] on. *)
Fixpoint clash_row (i j : nat) (a : Feature) (rest : list Feature)
    : list Issue :=
  match rest with
  | [] => []
  | b :: rest' => clash_pair i j a b ++ clash_row i (S j) a rest'
  end.

(** [for (let i = ...; ...)], with [fs] the features from [i] on. *)
Fixpoint clash_from (i : nat) (fs : list Feature) : list Issue :=
  match fs with
  | [] => []
  | a :: rest => clash_row i (S i) a rest ++ clash_from (S i) rest
  end.

Definition clash_check (blocks : FeatureCollection) : list Issue :=
  clash_from 0 blocks.

(** (2) Minimum aisle width, on the buffered blocks [buf]. *)
Definition aisle_pair (i j : nat) (a b : option Feature)
    : JS.Exn (list Issue) :=
  try x <- required a in
  try y <- required b in
  JS.Ok (if booleanIntersects x y then
           match intersect x y with
           | Some inter => [Aisle i j inter]
           | None => []
           end
         else []).

Fixpoint aisle_row (i j : nat) (a : option Feature)
    (rest : list (option Feature)) : JS.Exn (list Issue) :=
  match rest with
  | [] => JS.Ok []
  | b :: rest' =>
      try here <- aisle_pair i j a b in
      try more <- aisle_row i (S j) a rest' in
      JS.Ok (here ++ more)
  end.

Fixpoint aisle_from (i : nat) (buf : list (option Feature))
    : JS.Exn (list Issue) :=
  match buf with
  | [] => JS.Ok []
  | a :: rest =>
      try here <- aisle_row i (S i) a rest in
      try more <- aisle_from (S i) rest in
      JS.Ok (here ++ more)
  end.

Definition aisle_check (blocks : FeatureCollection) (minAisle : float)
    : JS.Exn (list Issue) :=
  if 0 <? minAisle then
    let buf := map (fun f => buffer f (minAisle / 1000)) blocks in
    aisle_from 0 buf
  else JS.Ok [].

(** (3) Boundary clearance.  [turf.buffer] throws on a site that is [null]
    ("geojson is required"); the inset it returns is handed to
    [turf.booleanWithin] as it is. *)
Fixpoint boundary_from (i : nat) (fs : list Feature) (inset : option Feature)
    : JS.Exn (list Issue) :=
  match fs with
  | [] => JS.Ok []
  | f :: rest =>
      try shrunk <- required inset in
      let here := if negb (booleanWithin f shrunk) then [Boundary i f] else [] in
      try more <- boundary_from (S i) rest inset in
      JS.Ok (here ++ more)
  end.

Definition boundary_check (site : option Feature)
    (blocks : FeatureCollection) (boundaryClearance : float)
    : JS.Exn (list Issue) :=
  if 0 <? boundaryClearance then
    match site with
    | None => JS.Throw JS.LibraryError
    | Some s =>
        let inset := buffer s (- boundaryClearance / 1000) in
        boundary_from 0 blocks inset
    end
  else JS.Ok [].

(** (4) Truck turning.  On a site that is [null], [turf.centroid] ends in
    [turf.point] rejecting coordinates that are not numbers.  (A site that is
    [undefined], which the application never passes, is not a value of
    [option Feature]: on it [turf.centroid] throws a TypeError.) *)
Definition turning_check (site : option Feature) (turnRadius : float)
    : JS.Exn (list Issue) :=
  if 0 <? turnRadius then
    match site with
    | None => JS.Throw JS.LibraryError
    | Some s =>
        let c := centroid s in
        let disc := circle c (metersToKm turnRadius) 64 in
        JS.Ok (if negb (booleanWithin disc s) then [Turning disc] else [])
    end
  else JS.Ok [].

Definition validateLayout (site : option Feature)
    (blocks : FeatureCollection)
    (minAisle boundaryClearance turnRadius : float)
    : JS.Exn (list Issue) :=
  let clashes := clash_check blocks in
  try aisles <- aisle_check blocks minAisle in
  try boundaries <- boundary_check site blocks boundaryClearance in
  try turnings <- turning_check site turnRadius in
  JS.Ok (clashes ++ aisles ++ boundaries ++ turnings).

(** *** Heat field generator *)

Definition heat_cell (site : Feature) (sources : list (list float))
    (cell : Feature) : list Feature :=
  let c := center cell in
  if negb (booleanPointInPolygon c site false) then []
  else
    let dists := map (fun s => distance c (turf_point s)) sources in
    let val := 1 / (JS.min dists + 0.001) in
    [turf_feature (geometry cell) [("value"%string, PNum val)]].

Definition generateHeatSquares (site : option Feature)
    (sources : list (list float)) (cellM : float) : FeatureCollection :=
  match site with
  | None => []
  | Some s =>
      if Nat.eqb (List.length sources) 0 then []
      else
        let box := bbox s in
        let grid := squareGrid box (metersToKm cellM) in
        flat_map (heat_cell s sources) grid
  end.

End Program.

(* ===================================================================== *)
(** ** A planar instance of the libraries

    Positions are metres in a local plane and every geometry stands for its
    axis-aligned bounding rectangle, which is exact for the axis-aligned
    rectangles that sites and blocks are when [rotation] is [0].  The
    instance runs the program on concrete layouts. *)

Module Planar.

Local Open Scope float_scope.

(** The positions of a geometry. *)
Fixpoint positions (g : Geometry float) : list (list float) :=
  match g with
  | Point c => [c]
  | MultiPoint cs => cs
  | LineString cs => cs
  | MultiLineString ls => List.concat ls
  | Polygon rs => List.concat rs
  | MultiPolygon ps => List.concat (List.concat ps)
  | GeometryCollection gs => List.concat (map positions gs)
  end.

Definition box (f : Feature) : BBox :=
  let ps := positions (geometry f) in
  let xs := map (fun p => at_index p 0) ps in
  let ys := map (fun p => at_index p 1) ps in
  (JS.min xs, JS.min ys, JS.max xs, JS.max ys).

Definition rectangle (b : BBox) : Feature :=
  let '(w, s, e, n) := b in
  turf_polygon [[[w; s]; [e; s]; [e; n]; [w; n]; [w; s]]] [].

(** Bearing [90] is east; every other bearing is taken as north. *)
Definition move_to (pt : Feature) (distKm bearing : float) : Feature :=
  let c := point_coordinates pt in
  if bearing =? 90
  then turf_point [at_index c 0 + distKm * 1000; at_index c 1]
  else turf_point [at_index c 0; at_index c 1 + distKm * 1000].

(** [floor] of a number below [2^51] in absolute value. *)
Definition floor (x : float) : float :=
  let t := (x + 0x1.8p+52) - 0x1.8p+52 in
  if x <? t then t - 1 else t.

(** The lattice values [x, x + step, ...] up to [hi]. *)
Fixpoint axis (fuel : nat) (x hi step : float) : list float :=
  match fuel with
  | O => []
  | S k => if x <=? hi then x :: axis k (x + step) hi step else []
  end.

(** The first [count] lattice values [x, x + step, ...]. *)
Fixpoint run (fuel : nat) (k count x step : float) : list float :=
  match fuel with
  | O => []
  | S f => if k <? count then x :: run f (k + 1) count (x + step) step else []
  end.

(** The margin that is left on either side when as many whole steps as fit
    are laid across a width: the grids of turf are centred in the box. *)
Definition margin (width d : float) : float :=
  (width - floor (width / d) * d) / 2.

(** As [turf.pointGrid]: whole steps across the box, centred in it, and a
    point at every lattice value that does not pass the far side. *)
Definition lattice (b : BBox) (cellKm : float) : list Feature :=
  let '(w, s, e, n) := b in
  let d := cellKm * 1000 in
  flat_map (fun x => map (fun y => turf_point [x; y])
                         (axis 1000 (s + margin (n - s) d) n d))
           (axis 1000 (w + margin (e - w) d) e d).

(** As [turf.squareGrid]: the whole cells that fit across the box, centred
    in it. *)
Definition cells (b : BBox) (cellKm : float) : list Feature :=
  let '(w, s, e, n) := b in
  let d := cellKm * 1000 in
  flat_map (fun x => map (fun y => rectangle (x, y, x + d, y + d))
                         (run 1000 0 (floor ((n - s) / d))
                              (s + margin (n - s) d) d))
           (run 1000 0 (floor ((e - w) / d)) (w + margin (e - w) d) d).


Definition inside (pt poly : Feature) (ignoreBoundary : bool)
    : bool :=
  let c := point_coordinates pt in
  let x := at_index c 0 in
  let y := at_index c 1 in
  let '(w, s, e, n) := box poly in
  if ignoreBoundary
  then ((w <? x) && (x <? e) && (s <? y) && (y <? n))%bool
  else ((w <=? x) && (x <=? e) && (s <=? y) && (y <=? n))%bool.

Definition within (a b : Feature) : bool :=
  let '(wa, sa, ea, na) := box a in
  let '(wb, sb, eb, nb) := box b in
  ((wb <=? wa) && (ea <=? eb) && (sb <=? sa) && (na <=? nb))%bool.

Definition meets (a b : Feature) : bool :=
  let '(wa, sa, ea, na) := box a in
  let '(wb, sb, eb, nb) := box b in
  ((wa <=? eb) && (wb <=? ea) && (sa <=? nb) && (sb <=? na))%bool.

(** The rectangle grown by [radiusKm] on every side; nothing is left of it
    once it has no interior. *)
Definition grow (f : Feature) (radiusKm : float) : option Feature :=
  let '(w, s, e, n) := box f in
  let r := radiusKm * 1000 in
  let b := (w - r, s - r, e + r, n + r) in
  let '(w', s', e', n') := b in
  if ((w' <? e') && (s' <? n'))%bool then Some (rectangle b) else None.

Definition common (a b : Feature) : option Feature :=
  let '(wa, sa, ea, na) := box a in
  let '(wb, sb, eb, nb) := box b in
  let c := (JS.max [wa; wb], JS.max [sa; sb], JS.min [ea; eb], JS.min [na; nb]) in
  let '(w, s, e, n) := c in
  if ((w <? e) && (s <? n))%bool then Some (rectangle c) else None.

Definition extent (f : Feature) : float :=
  let '(w, s, e, n) := box f in (e - w) * (n - s).

Definition middle (f : Feature) : Feature :=
  let '(w, s, e, n) := box f in turf_point [(w + e) / 2; (s + n) / 2].

(** The disc stands for the square around it. *)
Definition disc (c : Feature) (radiusKm : float) (steps : Z) : Feature :=
  let p := point_coordinates c in
  let r := radiusKm * 1000 in
  rectangle (at_index p 0 - r, at_index p 1 - r,
             at_index p 0 + r, at_index p 1 + r).

Definition apart (p q : Feature) : float :=
  let a := point_coordinates p in
  let b := point_coordinates q in
  let dx := at_index a 0 - at_index b 0 in
  let dy := at_index a 1 - at_index b 1 in
  PrimFloat.sqrt (dx * dx + dy * dy) / 1000.

Definition turf : Turf := {|
  destination := move_to;
  bbox := box;
  pointGrid := lattice;
  squareGrid := cells;
  booleanPointInPolygon := inside;
  booleanWithin := within;
  booleanIntersects := meets;
  buffer := grow;
  intersect := common;
  area := extent;
  centroid := middle;
  center := middle;
  circle := disc;
  distance := apart
|}.

(** [hypot] by the square root, [round] by [floor (x + 0.5)], and a
    displacement of length [0] has bearing [0]. *)
Definition math : JSMath := {|
  Math_hypot := fun x y => PrimFloat.sqrt (x * x + y * y);
  Math_atan2 := fun _ _ => 0;
  Math_round := fun x => floor (x + 0.5)
|}.


(** The square site with corners [(0,0)] and [(side, side)]. *)
Definition square (side : float) : Feature := rectangle (0, 0, side, side).

(** A block: the rectangle with the given corners. *)
Definition block (w s e n : float) : Feature :=
  turf_polygon [[[w; s]; [e; s]; [e; n]; [w; n]; [w; s]]]
               [("role"%string, PStr "block")].

End Planar.

(* ===================================================================== *)
(** ** Reference definitions *)

(** Two computations, each using its own generator, return the same value
    whenever the two generators have the same captured value, and leave the
    generators with the same captured value. *)
Definition agree {A} (r1 r2 : Rng) (m1 m2 : St A) : Prop :=
  forall s1 s2 : Store,
    s1 !! r1 = s2 !! r2 ->
    fst (m1 s1) = fst (m2 s2) /\ snd (m1 s1) !! r1 = snd (m2 s2) !! r2.

Section Reference.

Context {math : JSMath} {turf : Turf}.

Local Open Scope float_scope.

(** The rectangle the generator builds at candidate [pt] for type [t] from
    the two random numbers [r1] and [r2]. *)
Definition jittered_rect (rotation jitter : float) (pt : Feature)
    (t : ProcessType) (r1 r2 : float) : Feature :=
  let jw := (r1 - 0.5) * jitter in
  let jh := (r2 - 0.5) * jitter in
  let jCenter :=
    destination (turf_point (point_coordinates pt)) (Math_hypot jw jh / 1000)
                (Math_atan2 jw jh * 180 / JS.PI) in
  buildRect (point_coordinates jCenter) (type_w t) (type_h t) rotation
            [("role"%string, PStr "block"); ("type"%string, PStr (type_id t))].

(** The rectangle lies within the site and within the site buffered by
    [-aisleWidth / 2] metres, which is there and is one polygon. *)
Definition contained (site : Feature) (aisleWidth : float) (rect : Feature)
    : Prop :=
  booleanWithin rect site = true /\
  exists inset,
    buffer site (- aisleWidth / 2 / 1000) = Some inset /\
    is_GeometryCollection inset = false /\
    booleanWithin rect inset = true.

(** The same, as the test the generator makes. *)
Definition keeps (site : Feature) (aisleWidth : float) (rect : Feature)
    : bool :=
  (booleanWithin rect site
   && match buffer site (- aisleWidth / 2 / 1000) with
      | Some inset => negb (is_GeometryCollection inset)
                      && booleanWithin rect inset
      | None => false
      end)%bool.

(** Generation without a cap, on the captured value [a] of the generator:
    every type at one candidate position ... *)
Fixpoint every_type (site : Feature) (aisleWidth rotation jitter : float)
    (pt : Feature) (ts : list ProcessType) (a : Z) : list Feature * Z :=
  match ts with
  | [] => ([], a)
  | t :: ts' =>
      let (a1, r1) := mulberry32_step a in
      let (a2, r2) := mulberry32_step a1 in
      let rect := jittered_rect rotation jitter pt t r1 r2 in
      let (rest, a') := every_type site aisleWidth rotation jitter pt ts' a2 in
      ((if keeps site aisleWidth rect then [rect] else []) ++ rest, a')
  end.

(** ... and every candidate position, in order. *)
Fixpoint every_center (site : Feature) (aisleWidth rotation jitter : float)
    (types : list ProcessType) (centers : list Feature) (a : Z)
    : list Feature * Z :=
  match centers with
  | [] => ([], a)
  | pt :: centers' =>
      let (here, a1) :=
        every_type site aisleWidth rotation jitter pt types a in
      let (rest, a2) :=
        every_center site aisleWidth rotation jitter types centers' a1 in
      (here ++ rest, a2)
  end.

(** The candidate positions of a generation. *)
Definition candidates (site : Feature) (types : list ProcessType)
    (aisleWidth : float) : list Feature :=
  gridCenters site (JS.max [5; JS.max (map type_w types) + aisleWidth]).

(** What the turning check reports on a site that is there. *)
Definition turning_issues (site : Feature) (turnRadius : float)
    : list Issue :=
  if 0 <? turnRadius then
    let disc := circle (centroid site) (metersToKm turnRadius) 64 in
    if negb (booleanWithin disc site) then [Turning disc] else []
  else [].

End Reference.

(* ===================================================================== *)
(** ** The callers: catalog, block styling and export *)

(** An entry of [PROCESS_TYPES] in [constants.js]. *)
Record CatalogEntry := mkEntry {
  entry_id : string;
  entry_label : string;
  entry_w : float;
  entry_h : float;
  entry_color : string
}.

Definition PROCESS_TYPES : list CatalogEntry := [
  mkEntry "receiving" "Receiving" 40 40 "var(--color-gray-500)";
  mkEntry "processing" "Processing" 60 80 "var(--color-blue-600)";
  mkEntry "packaging" "Packaging" 50 60 "var(--color-emerald-500)";
  mkEntry "utilities" "Utilities" 30 30 "var(--color-amber-500)";
  mkEntry "warehouse" "Warehouse" 80 120 "var(--color-violet-600)"
].

(** An entry of the panel's [selectedTypes]: [{ ...t, enabled }]. *)
Record SelectedType := mkSelected {
  selected_entry : CatalogEntry;
  enabled : bool
}.

(** What the generator reads of a catalog entry. *)
Definition as_type (e : CatalogEntry) : ProcessType :=
  mkType (entry_id e) (entry_w e) (entry_h e).

(** [selectedTypes.filter(t => t.enabled)], the [types] of "Generate
    Layout". *)
Definition enabled_types (selectedTypes : list SelectedType)
    : list ProcessType :=
  map (fun t => as_type (selected_entry t)) (List.filter enabled selectedTypes).

(** [props[k]] and [{ ...props, [k]: v }] on a property bag: a key that is
    there keeps its place, a new key goes last. *)
Definition get_prop {N} (k : string) (props : list (string * PropValue N))
    : option (PropValue N) :=
  option_map snd (List.find (fun kv => String.eqb (fst kv) k) props).

Definition set_prop {N} (k : string) (v : PropValue N)
    (props : list (string * PropValue N)) : list (string * PropValue N) :=
  if existsb (fun kv => String.eqb (fst kv) k) props
  then map (fun kv => if String.eqb (fst kv) k then (k, v) else kv) props
  else props ++ [(k, v)].

(** The style object of a block: [{ color, weight, fillOpacity }]. *)
Record BlockStyle := mkStyle {
  style_color : string;
  style_weight : float;
  style_fillOpacity : float
}.

(** [blockStyle] of [MapWithDraw]:
<<
    const t = PROCESS_TYPES.find((x) => x.id === f.properties?.type);
    return { color: t?.color || "#0ea5e9", weight: 1, fillOpacity: 0.35 };
>> *)
Definition blockStyle (f : Feature) : BlockStyle :=
  let t :=
    List.find (fun x =>
                 match get_prop "type" (properties f) with
                 | Some (PStr s) => String.eqb (entry_id x) s
                 | _ => false
                 end)
              PROCESS_TYPES in
  let color :=
    match t with
    | Some t => if String.eqb (entry_color t) "" then "#0ea5e9"%string
                else entry_color t
    | None => "#0ea5e9"%string
    end in
  mkStyle color 1 0.35.

(** The number [i] of an array index. *)
Definition index_number (i : nat) : float :=
  PrimFloat.of_uint63 (Uint63.of_Z (Z.of_nat i)).

(** The features of [exportGeoJSON] in [ExportSection]:
<<
    ...(site ? [turf.feature(site.geometry, { role: "site" })] : []),
    ...((blocks?.features || []).map((f, i) =>
      ({ ...f, properties: { ...(f.properties || {}), role: "block", id: i } })))
>> *)
Definition export_block (i : nat) (f : Feature) : Feature :=
  mkFeature (geometry f)
            (set_prop "id" (PNum (index_number i))
                      (set_prop "role" (PStr "block") (properties f))).

Definition exportGeoJSON_features (site : option Feature)
    (blocks : option FeatureCollection) : FeatureCollection :=
  match site with
  | Some s => [turf_feature (geometry s) [("role"%string, PStr "site")]]
  | None => []
  end
  ++ imap export_block (default [] blocks).

(** The ring [linear] after snapping: [linear.map((c, i) => ...)]. *)
Definition snapped_ring {math : JSMath} {turf : Turf} (spacingM : float)
    (origin : list float) (orthogonal : bool)
    (linear : list (list (option float))) : list (list (option float)) :=
  imap (snap_vertex spacingM origin orthogonal linear) linear.

(** The other two kinds of issue. *)
Definition is_boundary (i : Issue) : bool :=
  match i with Boundary _ _ => true | _ => false end.
Definition is_turning (i : Issue) : bool :=
  match i with Turning _ => true | _ => false end.

(** How many blocks the cap lets through: no limit for [undefined] and [0];
    otherwise the generator stops after the push that brings the count to
    [maxBlocks], which for a negative [maxBlocks] is the first push. *)
Definition cap_count (maxBlocks : option Z) : option nat :=
  match maxBlocks with
  | None => None
  | Some m => if (m =? 0)%Z then None else Some (Z.to_nat (Z.max 1 m))
  end.

Definition capped {A} (limit : option nat) (l : list A) : list A :=
  match limit with
  | None => l
  | Some k => take k l
  end.

(* ===================================================================== *)
(** ** Runs on concrete inputs *)

Example ToInt32_wraps :
  (JS.ToInt32 (2 ^ 31), JS.ToInt32 (2 ^ 32 + 5), JS.imul 4294967295 5,
   JS.ushr (-1) 28, JS.xor (-1) 1)
  = (-2147483648, 5, -5, 15, -2)%Z.
Proof. reflexivity. Qed.

Example Math_max_of_nothing :
  (JS.max [], JS.max [5; 3]%float, JS.min [2; PrimFloat.nan]%float)
  = (PrimFloat.neg_infinity, 5, PrimFloat.nan)%float.
Proof. reflexivity. Qed.

Example json_number_cases :
  (JS.json_number (-0), JS.json_number PrimFloat.nan, JS.json_number 1.5)%float
  = (Some 0, None, Some 1.5)%float.
Proof. reflexivity. Qed.

(** The first number of [mulberry32(1)]. *)
Example mulberry32_first_draw :
  mulberry32_step 1 = (1831565814%Z, 0.62707394058816135%float).
Proof. vm_compute. reflexivity. Qed.

(** A square site of 100 m, one type of 10 m by 10 m, an aisle of 5 m and a
    cap of 10: ten blocks, after 20 of the 49 candidate positions. *)
Example generateBlocks_run :
  let run := @generateBlocks Planar.math Planar.turf
               (Some (Planar.square 100)) [mkType "t" 10 10]
               5 0 (Some 1%Z) 0 (Some 10%Z) [] in
  List.length (fst run) = 10%nat
  /\ snd run = [(1 + 2 * 20 * 0x6d2b79f5)%Z].
Proof. vm_compute. split; reflexivity. Qed.

(** The snapper on a triangle drawn by hand, on a grid of 5 m: with
    [orthogonal] every vertex after the first takes one coordinate from the
    vertex before it as it was drawn. *)
Example snapFeatureToGrid_run :
  @snapFeatureToGrid Planar.math Planar.turf
    (mkFeature (Polygon [[[1.2; 1.4]; [7.6; 1.9]; [7.4; 8.2]; [1.2; 1.4]]]%float)
               [])
    5 None (Some true)
  = mkFeature
      (Polygon [[[Some 0; Some 0]; [Some 10; Some 1.4]; [Some 7.6; Some 10];
                 [Some 7.4; Some 0]]]%float)
      [].
Proof. vm_compute. reflexivity. Qed.

(* ===================================================================== *)
(** ** The store and the generator *)

Lemma agree_ret {A} (r1 r2 : Rng) (a : A) : agree r1 r2 (ret a) (ret a).
Proof. intros s1 s2 H. split; [reflexivity | exact H]. Qed.

Lemma agree_bind {A B} (r1 r2 : Rng) (m1 m2 : St A) (k1 k2 : A -> St B) :
  agree r1 r2 m1 m2 ->
  (forall a, agree r1 r2 (k1 a) (k2 a)) ->
  agree r1 r2 (bind m1 k1) (bind m2 k2).
Proof.
  intros Hm Hk s1 s2 H. unfold bind.
  destruct (Hm s1 s2 H) as [Hv Hs].
  destruct (m1 s1) as [a1 s1'], (m2 s2) as [a2 s2']. simpl in Hv, Hs.
  subst a2. apply Hk, Hs.
Qed.

Lemma call_rng_agree (r1 r2 : Rng) : agree r1 r2 (call_rng r1) (call_rng r2).
Proof.
  intros s1 s2 H. unfold call_rng, Store, Rng in *. rewrite H.
  destruct (mulberry32_step (default 0%Z (s2 !! r2))) as [a x]. simpl.
  split; [reflexivity |].
  destruct (s2 !! r2) as [v |] eqn:E2.
  - rewrite !list_lookup_insert_eq; [reflexivity | |].
    + eapply lookup_lt_Some, E2.
    + eapply lookup_lt_Some, H.
  - rewrite !list_insert_ge.
    + congruence.
    + apply lookup_ge_None, E2.
    + apply lookup_ge_None, H.
Qed.

Lemma lookup_fresh_cell (s : Store) (a : Z) :
  (s ++ [a]) !! List.length s = Some a.
Proof. unfold Store in *. apply list_lookup_middle. reflexivity. Qed.

Lemma insert_fresh_cell (s : Store) (a b : Z) :
  <[List.length s := b]> (s ++ [a]) = s ++ [b].
Proof.
  unfold Store in *.
  replace (List.length s) with (List.length s + 0)%nat by lia.
  rewrite insert_app_r. reflexivity.
Qed.

Lemma call_rng_run (r : Rng) (s : Store) (a : Z) :
  s !! r = Some a ->
  call_rng r s = (snd (mulberry32_step a), <[r := fst (mulberry32_step a)]> s).
Proof.
  intros H. unfold call_rng. rewrite H. simpl.
  destruct (mulberry32_step a). reflexivity.
Qed.

(* ===================================================================== *)
(** ** The layout generator *)

Section Generator.

Context {math : JSMath} {turf : Turf}.

Variables (site : Feature) (aisleWidth rotation jitter : float).

Lemma keeps_contained (rect : Feature) :
  keeps site aisleWidth rect = true <-> contained site aisleWidth rect.
Proof.
  unfold keeps, contained. split.
  - intros H. apply andb_true_iff in H as [Hs Hi]. split; [exact Hs |].
    destruct (buffer site _) as [inset |]; [| discriminate].
    apply andb_true_iff in Hi as [Hg Hw].
    exists inset. split; [reflexivity |].
    split; [now apply negb_true_iff | exact Hw].
  - intros [Hs (inset & Hb & Hg & Hw)].
    rewrite Hs, Hb, Hg, Hw. reflexivity.
Qed.

(** One run of the loop body: two draws, and the rectangle if it is kept. *)
Lemma place_run (r : Rng) (pt : Feature) (t : ProcessType) (s : Store) (a : Z) :
  s !! r = Some a ->
  let a1 := fst (mulberry32_step a) in
  let r1 := snd (mulberry32_step a) in
  let a2 := fst (mulberry32_step a1) in
  let r2 := snd (mulberry32_step a1) in
  let rect := jittered_rect rotation jitter pt t r1 r2 in
  place site aisleWidth rotation jitter r pt t s =
    (if keeps site aisleWidth rect then Some rect else None, <[r := a2]> s).
Proof.
  intros H a1 r1 a2 r2 rect. unfold place, bind.
  rewrite (call_rng_run r s a H). fold a1 r1.
  assert (H1 : <[r := a1]> s !! r = Some a1).
  { unfold Store, Rng in *. apply list_lookup_insert_eq.
    eapply lookup_lt_Some, H. }
  rewrite (call_rng_run r _ a1 H1). fold a2 r2.
  unfold Store, Rng in *. rewrite list_insert_insert_eq.
  fold (jittered_rect rotation jitter pt t r1 r2). fold rect.
  unfold keeps, ret.
  destruct (booleanWithin rect site); simpl; [| reflexivity].
  destruct (buffer site _) as [inset |]; [| reflexivity].
  destruct (is_GeometryCollection inset); simpl; [reflexivity |].
  destruct (booleanWithin rect inset); reflexivity.
Qed.

Lemma place_agree (r1 r2 : Rng) (pt : Feature) (t : ProcessType) :
  agree r1 r2 (place site aisleWidth rotation jitter r1 pt t)
              (place site aisleWidth rotation jitter r2 pt t).
Proof.
  unfold place.
  apply agree_bind; [apply call_rng_agree | intros x1].
  apply agree_bind; [apply call_rng_agree | intros x2].
  destruct (negb (booleanWithin _ site)); [apply agree_ret |].
  destruct (buffer site _) as [inset |]; [| apply agree_ret].
  destruct (is_GeometryCollection inset); [apply agree_ret |].
  destruct (negb (booleanWithin _ inset)); apply agree_ret.
Qed.

Variable maxBlocks : option Z.

Lemma types_loop_agree (r1 r2 : Rng) (pt : Feature) (ts : list ProcessType) :
  forall out count,
    agree r1 r2
      (types_loop site aisleWidth rotation jitter maxBlocks r1 pt ts out count)
      (types_loop site aisleWidth rotation jitter maxBlocks r2 pt ts out count).
Proof.
  induction ts as [| t ts IH]; intros out count; simpl.
  - apply agree_ret.
  - apply agree_bind; [apply place_agree | intros [rect |]].
    + destruct (cap_reached maxBlocks (count + 1)); [apply agree_ret | apply IH].
    + apply IH.
Qed.

Lemma centers_loop_agree (r1 r2 : Rng) (types : list ProcessType)
    (centers : list Feature) :
  forall out count,
    agree r1 r2
      (centers_loop site aisleWidth rotation jitter maxBlocks r1 types
                    centers out count)
      (centers_loop site aisleWidth rotation jitter maxBlocks r2 types
                    centers out count).
Proof.
  induction centers as [| pt centers IH]; intros out count; simpl.
  - apply agree_ret.
  - apply agree_bind; [apply types_loop_agree | intros [[o c] | r]].
    + apply IH.
    + apply agree_ret.
Qed.

End Generator.

(** C2.  The layout generator is deterministic: two invocations with the same
    arguments return the same block collection, in the same order, whatever
    the store holds when each of them starts (so also when the second starts
    in the store the first has left). *)
Theorem generateBlocks_deterministic {math : JSMath} {turf : Turf}
    (sitePolygon : option Feature) (types : list ProcessType)
    (aisleWidth rotation : float) (seed : option Z) (jitter : float)
    (maxBlocks : option Z) (s1 s2 : Store) :
  fst (generateBlocks sitePolygon types aisleWidth rotation seed jitter
                      maxBlocks s1)
  = fst (generateBlocks sitePolygon types aisleWidth rotation seed jitter
                        maxBlocks s2)
  /\ fst (generateBlocks sitePolygon types aisleWidth rotation seed jitter
                         maxBlocks
                         (snd (generateBlocks sitePolygon types aisleWidth
                                 rotation seed jitter maxBlocks s1)))
     = fst (generateBlocks sitePolygon types aisleWidth rotation seed jitter
                           maxBlocks s1).
Proof.
  assert (H : forall s s' : Store,
             fst (generateBlocks sitePolygon types aisleWidth rotation seed
                                 jitter maxBlocks s)
             = fst (generateBlocks sitePolygon types aisleWidth rotation seed
                                   jitter maxBlocks s')).
  { intros s s'. destruct sitePolygon as [site |]; [| reflexivity].
    unfold generateBlocks, bind, mulberry32.
    apply centers_loop_agree.
    rewrite !lookup_fresh_cell. reflexivity. }
  split; apply H.
Qed.

Section GeneratorLoops.

Context {math : JSMath} {turf : Turf}.

Variables (site : Feature) (aisleWidth rotation jitter : float).
Variable maxBlocks : option Z.

Lemma place_Some (r : Rng) (pt : Feature) (t : ProcessType) (s : Store)
    (rect : Feature) :
  fst (place site aisleWidth rotation jitter r pt t s) = Some rect ->
  contained site aisleWidth rect.
Proof.
  unfold place, bind, ret, contained.
  destruct (call_rng r s) as [x1 s1].
  destruct (call_rng r s1) as [x2 s2].
  destruct (booleanWithin _ site) eqn:Hs; simpl; [| discriminate].
  destruct (buffer site _) as [inset |] eqn:Hb; simpl; [| discriminate].
  destruct (is_GeometryCollection inset) eqn:Hg; simpl; [discriminate |].
  destruct (booleanWithin _ inset) eqn:Hw; simpl; [| discriminate].
  intros [= <-]. split; [exact Hs |].
  exists inset. repeat split; assumption.
Qed.

(** An invariant [I] of the loop state [(out, count)] that every push of a
    contained rectangle keeps, or turns into [Q] where the cap stops the
    generation, holds when the loops end. *)
Section Invariant.

Variable I : list Feature -> Z -> Prop.
Variable Q : FeatureCollection -> Prop.

Hypothesis push :
  forall out count rect,
    I out count -> contained site aisleWidth rect ->
    if cap_reached maxBlocks (count + 1)
    then Q (out ++ [rect])
    else I (out ++ [rect]) (count + 1).

Lemma types_loop_inv (r : Rng) (pt : Feature) (ts : list ProcessType) :
  forall out count (s : Store),
    I out count ->
    match fst (types_loop site aisleWidth rotation jitter maxBlocks
                          r pt ts out count s) with
    | Next (o, c) => I o c
    | Return res => Q res
    end.
Proof.
  induction ts as [| t ts IH]; intros out count s HI; simpl.
  - exact HI.
  - unfold bind.
    destruct (place site aisleWidth rotation jitter r pt t s)
      as [[rect |] s'] eqn:E.
    + assert (Hc : contained site aisleWidth rect).
      { apply (place_Some r pt t s). rewrite E. reflexivity. }
      specialize (push out count rect HI Hc).
      destruct (cap_reached maxBlocks (count + 1)).
      * exact push.
      * apply IH, push.
    + apply IH, HI.
Qed.

Hypothesis finish : forall out count, I out count -> Q out.

Lemma centers_loop_inv (r : Rng) (types : list ProcessType)
    (centers : list Feature) :
  forall out count (s : Store),
    I out count ->
    Q (fst (centers_loop site aisleWidth rotation jitter maxBlocks
                         r types centers out count s)).
Proof.
  induction centers as [| pt centers IH]; intros out count s HI; simpl.
  - eapply finish, HI.
  - unfold bind.
    pose proof (types_loop_inv r pt types out count s HI) as H.
    destruct (types_loop site aisleWidth rotation jitter maxBlocks
                         r pt types out count s) as [[[o c] | res] s'].
    + apply IH, H.
    + exact H.
Qed.

End Invariant.

End GeneratorLoops.

(** C1.  Every block the layout generator returns for a site that is there
    lies within the site polygon and within the polygon obtained by buffering
    the site by [-aisleWidth / 2] metres, that is inward by half the aisle
    width. *)
Theorem generated_blocks_contained {math : JSMath} {turf : Turf}
    (site : Feature) (types : list ProcessType)
    (aisleWidth rotation : float) (seed : option Z) (jitter : float)
    (maxBlocks : option Z) (s : Store) :
  Forall (contained site aisleWidth)
         (fst (generateBlocks (Some site) types aisleWidth rotation seed
                              jitter maxBlocks s)).
Proof.
  unfold generateBlocks, bind, mulberry32.
  apply (centers_loop_inv site aisleWidth rotation jitter maxBlocks
           (fun out _ => Forall (contained site aisleWidth) out)
           (Forall (contained site aisleWidth))).
  - intros out count rect Hout Hrect.
    assert (Forall (contained site aisleWidth) (out ++ [rect])).
    { apply Forall_app. split; [exact Hout |].
      constructor; [exact Hrect | constructor]. }
    destruct (cap_reached maxBlocks (count + 1)); assumption.
  - intros out _ H. exact H.
  - constructor.
Qed.

(** C3, as amended.  With [maxBlocks = N] for an integer [N >= 1], the layout
    generator returns at most [N] blocks, for every site, type list, seed and
    jitter. *)
Theorem generateBlocks_cap {math : JSMath} {turf : Turf}
    (sitePolygon : option Feature) (types : list ProcessType)
    (aisleWidth rotation : float) (seed : option Z) (jitter : float)
    (N : Z) (s : Store) :
  (1 <= N)%Z ->
  (Z.of_nat (List.length
               (fst (generateBlocks sitePolygon types aisleWidth rotation
                                    seed jitter (Some N) s))) <= N)%Z.
Proof.
  intros HN. destruct sitePolygon as [site |]; [| simpl; lia].
  unfold generateBlocks, bind, mulberry32.
  apply (centers_loop_inv site aisleWidth rotation jitter (Some N)
           (fun out count =>
              count = Z.of_nat (List.length out) /\ (count < N)%Z)
           (fun res => (Z.of_nat (List.length res) <= N)%Z)).
  - intros out count rect [Hc Hlt] _.
    assert (Hlen : (count + 1)%Z = Z.of_nat (List.length (out ++ [rect]))).
    { rewrite length_app. simpl. lia. }
    unfold cap_reached.
    destruct (N =? 0)%Z eqn:E0; [apply Z.eqb_eq in E0; lia |].
    destruct (N <=? count + 1)%Z eqn:E1; simpl.
    + lia.
    + apply Z.leb_gt in E1. split; [exact Hlen | exact E1].
  - intros out count [Hc Hlt]. lia.
  - simpl. split; [reflexivity | lia].
Qed.

(** The amended C3 at a concrete layout: a square site of 100 m, one type of
    10 m by 10 m, [maxBlocks = 10]. *)
Lemma generateBlocks_cap_witness :
  (1 <= 10)%Z /\
  (Z.of_nat (List.length
               (fst (@generateBlocks Planar.math Planar.turf
                       (Some (Planar.square 100)) [mkType "t" 10 10]
                       5 0 (Some 1%Z) 0 (Some 10%Z) []))) <= 10)%Z.
Proof. split; [lia | apply generateBlocks_cap; lia]. Defined.

(** C3 as stated fails at [maxBlocks = 0]: on the same layout the generator
    returns 25 blocks. *)
Lemma generateBlocks_cap_zero_counterexample :
  ~ (Z.of_nat (List.length
                 (fst (@generateBlocks Planar.math Planar.turf
                         (Some (Planar.square 100)) [mkType "t" 10 10]
                         5 0 (Some 1%Z) 0 (Some 0%Z) []))) <= 0)%Z.
Proof.
  assert (E : List.length
                (fst (@generateBlocks Planar.math Planar.turf
                        (Some (Planar.square 100)) [mkType "t" 10 10]
                        5 0 (Some 1%Z) 0 (Some 0%Z) [])) = 25%nat)
    by (vm_compute; reflexivity).
  rewrite E. lia.
Qed.

Section Uncapped.

Context {math : JSMath} {turf : Turf}.

Variables (site : Feature) (aisleWidth rotation jitter : float).
Variable maxBlocks : option Z.
Hypothesis no_cap : forall count, cap_reached maxBlocks count = false.

Lemma types_loop_uncapped (r : Rng) (pt : Feature) (ts : list ProcessType) :
  forall out count (s : Store) (a : Z),
    s !! r = Some a ->
    let all := every_type site aisleWidth rotation jitter pt ts a in
    types_loop site aisleWidth rotation jitter maxBlocks r pt ts out count s
    = (Next (out ++ fst all, (count + Z.of_nat (List.length (fst all)))%Z),
       <[r := snd all]> s).
Proof.
  induction ts as [| t ts IH]; intros out count s a Hs;
    cbn [types_loop every_type].
  - unfold ret, Store, Rng in *. cbn [fst snd List.length Z.of_nat].
    rewrite app_nil_r, Z.add_0_r, list_insert_id by exact Hs. reflexivity.
  - unfold bind.
    rewrite (place_run site aisleWidth rotation jitter r pt t s a Hs).
    cbv zeta.
    destruct (mulberry32_step a) as [a1 r1]. cbn [fst snd].
    destruct (mulberry32_step a1) as [a2 r2]. cbn [fst snd].
    assert (H2 : <[r := a2]> s !! r = Some a2).
    { unfold Store, Rng in *. apply list_lookup_insert_eq.
      eapply lookup_lt_Some, Hs. }
    destruct (every_type site aisleWidth rotation jitter pt ts a2)
      as [rest a'] eqn:E.
    destruct (keeps site aisleWidth _) eqn:K; cbv beta iota zeta.
    + rewrite no_cap.
      rewrite (IH _ _ _ a2 H2). rewrite E. cbn [fst snd].
      unfold Store, Rng in *. rewrite list_insert_insert_eq.
      rewrite <- app_assoc. cbn [app].
      do 3 f_equal. cbn [List.length]. lia.
    + rewrite (IH _ _ _ a2 H2). rewrite E. cbn [fst snd app].
      unfold Store, Rng in *. rewrite list_insert_insert_eq. reflexivity.
Qed.

Lemma centers_loop_uncapped (r : Rng) (types : list ProcessType)
    (centers : list Feature) :
  forall out count (s : Store) (a : Z),
    s !! r = Some a ->
    let all := every_center site aisleWidth rotation jitter types centers a in
    centers_loop site aisleWidth rotation jitter maxBlocks r types centers
                 out count s
    = (out ++ fst all, <[r := snd all]> s).
Proof.
  induction centers as [| pt centers IH]; intros out count s a Hs;
    cbn [centers_loop every_center].
  - unfold ret, Store, Rng in *. cbn [fst snd].
    rewrite app_nil_r, list_insert_id by exact Hs. reflexivity.
  - unfold bind. rewrite (types_loop_uncapped r pt types out count s a Hs).
    cbv zeta.
    destruct (every_type site aisleWidth rotation jitter pt types a)
      as [here a1]. cbn [fst snd].
    assert (H1 : <[r := a1]> s !! r = Some a1).
    { unfold Store, Rng in *. apply list_lookup_insert_eq.
      eapply lookup_lt_Some, Hs. }
    rewrite (IH _ _ _ a1 H1).
    destruct (every_center site aisleWidth rotation jitter types centers a1)
      as [rest a2]. cbn [fst snd].
    unfold Store, Rng in *. rewrite list_insert_insert_eq, app_assoc.
    reflexivity.
Qed.

Lemma generateBlocks_no_cap (types : list ProcessType) (seed : option Z)
    (s : Store) :
  let all := every_center site aisleWidth rotation jitter types
                          (candidates site types aisleWidth) (default 1%Z seed) in
  generateBlocks (Some site) types aisleWidth rotation seed jitter maxBlocks s
  = (fst all, s ++ [snd all]).
Proof.
  intros all. unfold generateBlocks, bind, mulberry32.
  rewrite (centers_loop_uncapped _ types _ [] 0%Z _ (default 1%Z seed))
    by apply lookup_fresh_cell.
  fold (candidates site types aisleWidth). fold all.
  rewrite insert_fresh_cell. reflexivity.
Qed.

End Uncapped.

Section Draws.

Context {math : JSMath} {turf : Turf}.

Variables (site : Feature) (aisleWidth rotation jitter : float).

Lemma mulberry32_step_state (a : Z) :
  fst (mulberry32_step a) = (a + 0x6d2b79f5)%Z.
Proof. reflexivity. Qed.

(** Every type at a position takes two draws. *)
Lemma every_type_draws (pt : Feature) (ts : list ProcessType) :
  forall a,
    snd (every_type site aisleWidth rotation jitter pt ts a)
    = (a + 2 * Z.of_nat (List.length ts) * 0x6d2b79f5)%Z.
Proof.
  induction ts as [| t ts IH]; intros a.
  - simpl. lia.
  - cbn [every_type].
    pose proof (mulberry32_step_state a) as E1.
    destruct (mulberry32_step a) as [a1 r1]. simpl in E1.
    pose proof (mulberry32_step_state a1) as E2.
    destruct (mulberry32_step a1) as [a2 r2]. simpl in E2.
    specialize (IH a2).
    destruct (every_type site aisleWidth rotation jitter pt ts a2)
      as [rest a']. simpl in *. subst. cbn [List.length]. lia.
Qed.

Lemma every_center_draws (types : list ProcessType) (centers : list Feature) :
  forall a,
    snd (every_center site aisleWidth rotation jitter types centers a)
    = (a + 2 * Z.of_nat (List.length centers * List.length types)
           * 0x6d2b79f5)%Z.
Proof.
  induction centers as [| pt centers IH]; intros a.
  - simpl. lia.
  - cbn [every_center].
    pose proof (every_type_draws pt types a) as E1.
    destruct (every_type site aisleWidth rotation jitter pt types a)
      as [here a1]. simpl in E1.
    specialize (IH a1).
    destruct (every_center site aisleWidth rotation jitter types centers a1)
      as [rest a2]. simpl in *. subst. lia.
Qed.

(** Where every rectangle passes the containment tests, the uncapped
    generation returns one block for every candidate position and type. *)
Lemma every_type_all_kept (pt : Feature) (ts : list ProcessType) :
  (forall rect, keeps site aisleWidth rect = true) ->
  forall a,
    List.length (fst (every_type site aisleWidth rotation jitter pt ts a))
    = List.length ts.
Proof.
  intros Hall. induction ts as [| t ts IH]; intros a; [reflexivity |].
  cbn [every_type].
  destruct (mulberry32_step a) as [a1 r1].
  destruct (mulberry32_step a1) as [a2 r2].
  specialize (IH a2).
  destruct (every_type site aisleWidth rotation jitter pt ts a2) as [rest a'].
  rewrite Hall. simpl in *. rewrite IH. reflexivity.
Qed.

Lemma every_center_all_kept (types : list ProcessType)
    (centers : list Feature) :
  (forall rect, keeps site aisleWidth rect = true) ->
  forall a,
    List.length
      (fst (every_center site aisleWidth rotation jitter types centers a))
    = (List.length centers * List.length types)%nat.
Proof.
  intros Hall. induction centers as [| pt centers IH]; intros a;
    [reflexivity |].
  cbn [every_center].
  pose proof (every_type_all_kept pt types Hall a) as E1.
  destruct (every_type site aisleWidth rotation jitter pt types a)
    as [here a1].
  specialize (IH a1).
  destruct (every_center site aisleWidth rotation jitter types centers a1)
    as [rest a2].
  simpl in *. rewrite length_app, E1, IH. reflexivity.
Qed.

End Draws.

(** C9.  With [maxBlocks] equal to [0] or [undefined] the layout generator
    applies no cap: it goes through every candidate position and, at each,
    every type (two draws of the generator for each combination), and returns
    every rectangle that passes the containment tests. *)
Theorem generateBlocks_uncapped {math : JSMath} {turf : Turf}
    (site : Feature) (types : list ProcessType)
    (aisleWidth rotation : float) (seed : option Z) (jitter : float)
    (s : Store) :
  let centers := candidates site types aisleWidth in
  let all := every_center site aisleWidth rotation jitter types centers
                          (default 1%Z seed) in
  generateBlocks (Some site) types aisleWidth rotation seed jitter (Some 0%Z) s
  = (fst all, s ++ [snd all])
  /\ generateBlocks (Some site) types aisleWidth rotation seed jitter None s
     = (fst all, s ++ [snd all])
  /\ snd all = (default 1%Z seed
                + 2 * Z.of_nat (List.length centers * List.length types)
                  * 0x6d2b79f5)%Z.
Proof.
  intros centers all. repeat split.
  - apply generateBlocks_no_cap. reflexivity.
  - apply generateBlocks_no_cap. reflexivity.
  - apply every_center_draws.
Qed.

(* ===================================================================== *)
(** ** The layout validator *)

Section Validator.

Context {turf : Turf}.

Local Open Scope float_scope.

(** The kinds of issue each check reports. *)
Lemma clash_row_kind (i j : nat) (a : Feature) (rest : list Feature) :
  forall j', Forall (fun x => is_clash x = true) (clash_row i j' a rest).
Proof.
  clear j. induction rest as [| b rest IH]; intros j; simpl.
  - constructor.
  - apply Forall_app. split; [| apply IH].
    unfold clash_pair. destruct (booleanIntersects a b); [| constructor].
    destruct (intersect a b); repeat constructor.
Qed.

Lemma clash_from_kind (fs : list Feature) :
  forall i, Forall (fun x => is_clash x = true) (clash_from i fs).
Proof.
  induction fs as [| a rest IH]; intros i; simpl.
  - constructor.
  - apply Forall_app. split; [apply (clash_row_kind i 0) | apply IH].
Qed.

Lemma aisle_row_kind (a : option Feature) (rest : list (option Feature)) :
  forall i j l,
    aisle_row i j a rest = JS.Ok l -> Forall (fun x => is_aisle x = true) l.
Proof.
  induction rest as [| b rest IH]; intros i j l; simpl.
  - intros [= <-]. constructor.
  - unfold aisle_pair.
    destruct a as [x |]; simpl; [| discriminate].
    destruct b as [y |]; simpl; [| discriminate].
    destruct (aisle_row i (S j) (Some x) rest) as [more |] eqn:E; simpl;
      [| discriminate].
    intros [= <-]. apply Forall_app. split; [| eapply IH, E].
    destruct (booleanIntersects x y); [| constructor].
    destruct (intersect x y); repeat constructor.
Qed.

Lemma aisle_from_kind (buf : list (option Feature)) :
  forall i l,
    aisle_from i buf = JS.Ok l -> Forall (fun x => is_aisle x = true) l.
Proof.
  induction buf as [| a rest IH]; intros i l; simpl.
  - intros [= <-]. constructor.
  - destruct (aisle_row i (S i) a rest) as [here |] eqn:E1; simpl;
      [| discriminate].
    destruct (aisle_from (S i) rest) as [more |] eqn:E2; simpl;
      [| discriminate].
    intros [= <-]. apply Forall_app. split.
    + eapply aisle_row_kind, E1.
    + eapply IH, E2.
Qed.

Lemma aisle_check_kind (blocks : FeatureCollection) (minAisle : float) l :
  aisle_check blocks minAisle = JS.Ok l ->
  Forall (fun x => is_aisle x = true) l.
Proof.
  unfold aisle_check. destruct (0 <? minAisle).
  - apply aisle_from_kind.
  - intros [= <-]. constructor.
Qed.

Lemma boundary_from_kind (inset : option Feature) (fs : list Feature) :
  forall i l,
    boundary_from i fs inset = JS.Ok l ->
    Forall (fun x => is_clash x = false /\ is_aisle x = false) l.
Proof.
  induction fs as [| f rest IH]; intros i l; simpl.
  - intros [= <-]. constructor.
  - destruct inset as [shrunk |]; simpl; [| discriminate].
    destruct (boundary_from (S i) rest (Some shrunk)) as [more |] eqn:E;
      simpl; [| discriminate].
    intros [= <-]. apply Forall_app. split; [| eapply IH, E].
    destruct (negb (booleanWithin f shrunk)); repeat constructor.
Qed.

Lemma boundary_check_kind (site : option Feature) (blocks : FeatureCollection)
    (boundaryClearance : float) l :
  boundary_check site blocks boundaryClearance = JS.Ok l ->
  Forall (fun x => is_clash x = false /\ is_aisle x = false) l.
Proof.
  unfold boundary_check. destruct (0 <? boundaryClearance).
  - destruct site; [apply boundary_from_kind | discriminate].
  - intros [= <-]. constructor.
Qed.

Lemma turning_check_kind (site : option Feature) (turnRadius : float) l :
  turning_check site turnRadius = JS.Ok l ->
  Forall (fun x => is_clash x = false /\ is_aisle x = false) l.
Proof.
  unfold turning_check. destruct (0 <? turnRadius).
  - destruct site; [| discriminate]. intros [= <-].
    destruct (negb (booleanWithin _ _)); repeat constructor.
  - intros [= <-]. constructor.
Qed.

Lemma filter_all {A} (p : A -> bool) (l : list A) :
  Forall (fun x => p x = true) l -> List.filter p l = l.
Proof.
  induction 1 as [| x l Hx _ IH]; simpl; [reflexivity |].
  rewrite Hx, IH. reflexivity.
Qed.

Lemma filter_none {A} (p : A -> bool) (l : list A) :
  Forall (fun x => p x = false) l -> List.filter p l = [].
Proof.
  induction 1 as [| x l Hx _ IH]; simpl; [reflexivity |].
  rewrite Hx, IH. reflexivity.
Qed.

Lemma aisle_not_clash (l : list Issue) :
  Forall (fun x => is_aisle x = true) l ->
  Forall (fun x => is_clash x = false) l.
Proof.
  intros H. eapply Forall_impl; [exact H |].
  intros [] Hx; simpl in *; congruence.
Qed.

Lemma clash_not_aisle (l : list Issue) :
  Forall (fun x => is_clash x = true) l ->
  Forall (fun x => is_aisle x = false) l.
Proof.
  intros H. eapply Forall_impl; [exact H |].
  intros [] Hx; simpl in *; congruence.
Qed.

(** The issues of a run that returns, by kind. *)
Lemma validateLayout_issues (site : option Feature)
    (blocks : FeatureCollection)
    (minAisle boundaryClearance turnRadius : float) (issues : list Issue) :
  validateLayout site blocks minAisle boundaryClearance turnRadius
  = JS.Ok issues ->
  exists aisles,
    aisle_check blocks minAisle = JS.Ok aisles /\
    List.filter is_clash issues = clash_check blocks /\
    List.filter is_aisle issues = aisles.
Proof.
  unfold validateLayout.
  destruct (aisle_check blocks minAisle) as [aisles |] eqn:Ea; simpl;
    [| discriminate].
  destruct (boundary_check site blocks boundaryClearance)
    as [boundaries |] eqn:Eb; simpl; [| discriminate].
  destruct (turning_check site turnRadius) as [turnings |] eqn:Et; simpl;
    [| discriminate].
  intros [= <-]. exists aisles. split; [reflexivity |].
  pose proof (clash_from_kind blocks 0%nat) as Hc.
  pose proof (aisle_check_kind _ _ _ Ea) as Ha.
  pose proof (boundary_check_kind _ _ _ _ Eb) as Hb.
  pose proof (turning_check_kind _ _ _ Et) as Ht.
  rewrite !List.filter_app.
  split.
  - rewrite (filter_all is_clash (clash_check blocks)) by exact Hc.
    rewrite (filter_none is_clash aisles) by (apply aisle_not_clash, Ha).
    rewrite (filter_none is_clash boundaries)
      by (eapply Forall_impl; [exact Hb |]; intros ? []; assumption).
    rewrite (filter_none is_clash turnings)
      by (eapply Forall_impl; [exact Ht |]; intros ? []; assumption).
    rewrite !app_nil_r. reflexivity.
  - rewrite (filter_none is_aisle (clash_check blocks))
      by (apply clash_not_aisle, Hc).
    rewrite (filter_all is_aisle aisles) by exact Ha.
    rewrite (filter_none is_aisle boundaries)
      by (eapply Forall_impl; [exact Hb |]; intros ? []; assumption).
    rewrite (filter_none is_aisle turnings)
      by (eapply Forall_impl; [exact Ht |]; intros ? []; assumption).
    rewrite !app_nil_r. reflexivity.
Qed.

(** Without blocks only the turning check can report. *)
Lemma validateLayout_no_blocks (site : Feature)
    (minAisle boundaryClearance turnRadius : float) :
  validateLayout (Some site) [] minAisle boundaryClearance turnRadius
  = JS.Ok (turning_issues site turnRadius).
Proof.
  unfold validateLayout, aisle_check, boundary_check, turning_check,
    turning_issues.
  destruct (0 <? minAisle), (0 <? boundaryClearance), (0 <? turnRadius);
    reflexivity.
Qed.

(** An inset that turf does not return makes the boundary check throw as
    soon as there is a block to test. *)
Lemma boundary_check_undefined_inset (site f : Feature)
    (blocks : FeatureCollection) (boundaryClearance : float) :
  (0 <? boundaryClearance) = true ->
  buffer site (- boundaryClearance / 1000) = None ->
  boundary_check (Some site) (f :: blocks) boundaryClearance
  = JS.Throw JS.TypeError.
Proof.
  intros Hpos Hnone. unfold boundary_check. rewrite Hpos, Hnone.
  reflexivity.
Qed.

(** The validator returns whenever turf returns every buffer it is asked
    for. *)
Lemma aisle_row_returns (x : Feature) (rest : list (option Feature)) :
  Forall is_Some rest ->
  forall i j, exists l, aisle_row i j (Some x) rest = JS.Ok l.
Proof.
  induction 1 as [| b rest [y ->] _ IH]; intros i j; simpl.
  - eexists. reflexivity.
  - destruct (IH i (S j)) as [more ->]. simpl. eexists. reflexivity.
Qed.

Lemma aisle_from_returns (buf : list (option Feature)) :
  Forall is_Some buf -> forall i, exists l, aisle_from i buf = JS.Ok l.
Proof.
  induction 1 as [| a rest [x ->] Hrest IH]; intros i; simpl.
  - eexists. reflexivity.
  - destruct (aisle_row_returns x rest Hrest i (S i)) as [here ->].
    destruct (IH (S i)) as [more ->]. simpl. eexists. reflexivity.
Qed.

Lemma boundary_from_returns (shrunk : Feature) (fs : list Feature) :
  forall i, exists l, boundary_from i fs (Some shrunk) = JS.Ok l.
Proof.
  induction fs as [| f rest IH]; intros i; simpl.
  - eexists. reflexivity.
  - destruct (IH (S i)) as [more ->]. simpl. eexists. reflexivity.
Qed.

Lemma validateLayout_returns (site : Feature) (blocks : FeatureCollection)
    (minAisle boundaryClearance turnRadius : float) :
  Forall (fun f => is_Some (buffer f (minAisle / 1000))) blocks ->
  is_Some (buffer site (- boundaryClearance / 1000)) ->
  exists issues,
    validateLayout (Some site) blocks minAisle boundaryClearance turnRadius
    = JS.Ok issues.
Proof.
  intros Hbuf [shrunk Hinset].
  unfold validateLayout, aisle_check, boundary_check, turning_check.
  assert (Ha : exists l,
             (if 0 <? minAisle
              then aisle_from 0 (map (fun f => buffer f (minAisle / 1000)) blocks)
              else JS.Ok []) = JS.Ok l).
  { destruct (0 <? minAisle); [| eexists; reflexivity].
    apply aisle_from_returns, Forall_map. exact Hbuf. }
  destruct Ha as [aisles ->]. simpl.
  rewrite Hinset.
  assert (Hb : exists l,
             (if 0 <? boundaryClearance
              then boundary_from 0 blocks (Some shrunk)
              else JS.Ok []) = JS.Ok l).
  { destruct (0 <? boundaryClearance); [| eexists; reflexivity].
    apply boundary_from_returns. }
  destruct Hb as [boundaries ->]. simpl.
  destruct (0 <? turnRadius); simpl; eexists; reflexivity.
Qed.

End Validator.

(** C4 as stated fails for the validator on an empty block collection: on a
    square site of 10 m with a turning radius of 20 m it reports a turning
    issue. *)
Lemma validateLayout_no_blocks_counterexample :
  @validateLayout Planar.turf (Some (Planar.square 10)) [] 0 0 20
  <> JS.Ok [].
Proof. vm_compute. discriminate. Qed.

(** C4, as amended.  The layout generator on a site that is [null] returns the
    empty collection; the heat field generator on a site that is [null], or
    on an empty source list, returns the empty collection; the validator on an
    empty block collection, for a site that is there, throws nothing and
    returns what its turning check reports, which is nothing when the turning
    radius is not positive. *)
Theorem empty_inputs {math : JSMath} {turf : Turf} :
  (forall types aisleWidth rotation seed jitter maxBlocks (s : Store),
      generateBlocks None types aisleWidth rotation seed jitter maxBlocks s
      = ([], s))
  /\ (forall sources cellM, generateHeatSquares None sources cellM = [])
  /\ (forall site cellM, generateHeatSquares site [] cellM = [])
  /\ (forall site minAisle boundaryClearance turnRadius,
         validateLayout (Some site) [] minAisle boundaryClearance turnRadius
         = JS.Ok (turning_issues site turnRadius))
  /\ (forall site minAisle boundaryClearance,
         validateLayout (Some site) [] minAisle boundaryClearance 0
         = JS.Ok []).
Proof.
  repeat split.
  - intros [site |] cellM; reflexivity.
  - intros. apply validateLayout_no_blocks.
  - intros. rewrite validateLayout_no_blocks. reflexivity.
Qed.

(** C5 fails on the code: the boundary check hands the inset to turf without
    testing that there is one.  On a square site of 10 m with a boundary
    clearance of 20 m nothing is left of the site, and with one block the
    validator throws; the generator, on the same site with an aisle width of
    40 m, tests the inset and returns no block. *)
Theorem validateLayout_collapsed_inset_throws :
  @buffer Planar.turf (Planar.square 10) (- 20 / 1000) = None
  /\ @validateLayout Planar.turf (Some (Planar.square 10))
       [Planar.block 2 2 4 4] 0 20 0
     = JS.Throw JS.TypeError
  /\ fst (@generateBlocks Planar.math Planar.turf (Some (Planar.square 10))
            [mkType "t" 2 2] 40 0 (Some 1%Z) 0 None [])
     = [].
Proof. repeat split; vm_compute; reflexivity. Qed.




(* ===================================================================== *)
(** ** The grid sampler *)





(* ===================================================================== *)
(** ** The grid snapper *)

Lemma json_number_exact (x : float) :
  JS.json_exact x = true -> JS.json_number x = Some x.
Proof.
  unfold JS.json_exact, JS.json_number. intros H.
  apply andb_true_iff in H as [H1 H2].
  apply negb_true_iff in H1, H2. rewrite H1, H2. reflexivity.
Qed.

Lemma map_json_exact (c : list float) :
  forallb JS.json_exact c = true -> map JS.json_number c = map Some c.
Proof.
  induction c as [| x c IH]; simpl; [reflexivity |].
  intros H. apply andb_true_iff in H as [Hx Hc].
  rewrite (json_number_exact x Hx), (IH Hc). reflexivity.
Qed.

(** Lifting through one more level of arrays. *)
Lemma map_level {A B} (p : A -> bool) (f g : A -> B) :
  (forall x, p x = true -> f x = g x) ->
  forall l, forallb p l = true -> map f l = map g l.
Proof.
  intros H. induction l as [| x l IH]; simpl; [reflexivity |].
  intros Hl. apply andb_true_iff in Hl as [Hx Hl].
  rewrite (H x Hx), (IH Hl). reflexivity.
Qed.

Lemma geometry_json_exact :
  forall g : Geometry float,
    geometry_forallb JS.json_exact g = true ->
    geometry_map JS.json_number g = geometry_map Some g.
Proof.
  fix IH 1. intros [c | cs | cs | ls | rs | ps | gs]; simpl; intros H; f_equal.
  - apply map_json_exact, H.
  - revert H. apply map_level, map_json_exact.
  - revert H. apply map_level, map_json_exact.
  - revert H. apply map_level, map_level, map_json_exact.
  - revert H. apply map_level, map_level, map_json_exact.
  - revert H. apply map_level, map_level, map_level, map_json_exact.
  - induction gs as [| g gs IHgs]; simpl in *; [reflexivity |].
    apply andb_true_iff in H as [Hg Hgs].
    rewrite (IH g Hg), (IHgs Hgs). reflexivity.
Qed.

Lemma json_clone_safe (x : Feature) :
  json_safe x = true -> json_clone x = feature_map Some x.
Proof.
  unfold json_safe, feature_forallb, json_clone, feature_map. intros H.
  apply andb_true_iff in H as [Hg Hp].
  rewrite (geometry_json_exact _ Hg). f_equal.
  revert Hp. apply map_level. intros [k [str | n]] Hn; simpl in *.
  - reflexivity.
  - rewrite (json_number_exact n Hn). reflexivity.
Qed.

Lemma Forall2_map_left {A B} (R : B -> A -> Prop) (f : A -> B) :
  (forall x, R (f x) x) -> forall l, Forall2 R (map f l) l.
Proof.
  intros H. induction l as [| x l IH]; simpl; constructor; auto.
Qed.

Lemma same_geometry_map {N M} (R : M -> N -> Prop) (f : N -> M) :
  (forall x, R (f x) x) ->
  forall g : Geometry N, same_geometry R (geometry_map f g) g.
Proof.
  intros H. fix IH 1. intros [c | cs | cs | ls | rs | ps | gs]; simpl.
  - apply Forall2_map_left, H.
  - apply Forall2_map_left, Forall2_map_left, H.
  - apply Forall2_map_left, Forall2_map_left, H.
  - apply Forall2_map_left, Forall2_map_left, Forall2_map_left, H.
  - apply Forall2_map_left, Forall2_map_left, Forall2_map_left, H.
  - apply Forall2_map_left, Forall2_map_left, Forall2_map_left,
      Forall2_map_left, H.
  - induction gs as [| g gs IHgs]; simpl; [exact I |].
    split; [apply IH | exact IHgs].
Qed.

Lemma same_feature_map {N M} (R : M -> N -> Prop) (f : N -> M) :
  (forall x, R (f x) x) ->
  forall x : GFeature N, same_feature R (feature_map f x) x.
Proof.
  intros H x. split; simpl; [apply same_geometry_map, H |].
  induction (properties x) as [| [k v] l IH]; simpl; constructor; auto.
  simpl. split; [reflexivity |]. destruct v; simpl; [reflexivity | apply H].
Qed.

(** C10 as stated fails at a number JSON cannot write: the copy of a point
    whose longitude is NaN has [null] in its place. *)
Lemma snapFeatureToGrid_nan_counterexample :
  let pt := mkFeature (Point [PrimFloat.nan; 52.37]%float) [] in
  let copy := @snapFeatureToGrid Planar.math Planar.turf pt 5 None None in
  copy = mkFeature (Point [None; Some 52.37%float]) []
  /\ ~ same_feature (fun x' x => x' = Some x) copy pt.
Proof.
  intros pt copy. split; [vm_compute; reflexivity |].
  intros [Hg _]. vm_compute in Hg. inversion Hg as [| ? ? ? ? Hx _].
  discriminate Hx.
Qed.

(** C10, as amended.  For a feature whose geometry type is neither Polygon
    nor MultiPolygon the grid snapper returns a copy of the feature, whatever
    the spacing, the origin and the orthogonal flag: of the same geometry
    type, with arrays of the same lengths at every level and the same
    properties, and in the place of every number what JSON makes of it.  When
    every number of the feature is finite and not negative zero, the copy has
    every number unchanged. *)
Theorem snapFeatureToGrid_other_geometry {math : JSMath} {turf : Turf}
    (feature : Feature) (spacingM : float) (origin : option (list float))
    (orthogonal : option bool) :
  geometry_type (geometry feature) <> "Polygon"%string ->
  geometry_type (geometry feature) <> "MultiPolygon"%string ->
  let copy := snapFeatureToGrid feature spacingM origin orthogonal in
  geometry_type (geometry copy) = geometry_type (geometry feature)
  /\ same_feature (fun x' x => x' = JS.json_number x) copy feature
  /\ (json_safe feature = true ->
      same_feature (fun x' x => x' = Some x) copy feature).
Proof.
  intros Hp Hm copy.
  assert (E : copy = json_clone feature).
  { unfold copy, snapFeatureToGrid.
    destruct feature as [g props]. simpl in *.
    destruct g; simpl in *; try reflexivity; congruence. }
  rewrite E. split; [| split].
  - destruct feature as [[] props]; reflexivity.
  - apply same_feature_map. reflexivity.
  - intros Hsafe. rewrite (json_clone_safe _ Hsafe).
    apply same_feature_map. reflexivity.
Qed.

(** The amended C10 at a line of two vertices, snapped orthogonally to a grid
    of 5 m: the copy has the two vertices and the name unchanged. *)
Lemma snapFeatureToGrid_other_geometry_witness :
  let line := mkFeature (LineString [[4.9; 52.37]; [4.91; 52.38]]%float)
                        [("name"%string, PStr "fence")] in
  let copy := @snapFeatureToGrid Planar.math Planar.turf line 5
                (Some [4.9; 52.37]%float) (Some true) in
  json_safe line = true
  /\ same_feature (fun x' x => x' = Some x) copy line.
Proof.
  intros line copy.
  assert (Hsafe : json_safe line = true) by (vm_compute; reflexivity).
  split; [exact Hsafe |].
  destruct (@snapFeatureToGrid_other_geometry Planar.math Planar.turf line 5
              (Some [4.9; 52.37]%float) (Some true)) as (_ & _ & H).
  - vm_compute. discriminate.
  - vm_compute. discriminate.
  - exact (H Hsafe).
Defined.

(* ===================================================================== *)
(** ** The cap of the layout generator *)

Section Capped.

Context {math : JSMath} {turf : Turf}.

Variables (site : Feature) (aisleWidth rotation jitter : float).
Variable m : Z.
Hypothesis cap_set : m <> 0%Z.

Lemma cap_reached_max (count : Z) :
  (1 <= count)%Z ->
  cap_reached (Some m) count = (Z.max 1 m <=? count)%Z.
Proof.
  intros Hc. unfold cap_reached.
  destruct (Z.eqb_spec m 0) as [E | _]; [contradiction |]. simpl.
  destruct (Z.leb_spec m count), (Z.leb_spec (Z.max 1 m) count);
    try reflexivity; lia.
Qed.

(** The inner loop under a cap: it goes on with everything the types give at
    this position while the cap is not reached, and returns the first
    [max 1 m] blocks when it is. *)
Lemma types_loop_capped (r : Rng) (pt : Feature) (ts : list ProcessType) :
  forall out count (s : Store) (a : Z),
    s !! r = Some a ->
    count = Z.of_nat (List.length out) ->
    (count < Z.max 1 m)%Z ->
    let all := every_type site aisleWidth rotation jitter pt ts a in
    let total := Z.of_nat (List.length out + List.length (fst all)) in
    ((total < Z.max 1 m)%Z ->
     types_loop site aisleWidth rotation jitter (Some m) r pt ts out count s
     = (Next (out ++ fst all, total), <[r := snd all]> s))
    /\ ((Z.max 1 m <= total)%Z ->
        fst (types_loop site aisleWidth rotation jitter (Some m) r pt ts
                        out count s)
        = Return (take (Z.to_nat (Z.max 1 m)) (out ++ fst all))).
Proof.
  induction ts as [| t ts IH]; intros out count s a Hs Hc Hlt;
    cbn [types_loop every_type].
  - cbn [fst snd List.length]. split.
    + intros _. unfold ret, Store, Rng in *.
      rewrite app_nil_r, Nat.add_0_r, list_insert_id by exact Hs.
      subst count. reflexivity.
    + lia.
  - unfold bind.
    rewrite (place_run site aisleWidth rotation jitter r pt t s a Hs).
    cbv zeta.
    destruct (mulberry32_step a) as [a1 r1]. cbn [fst snd].
    destruct (mulberry32_step a1) as [a2 r2]. cbn [fst snd].
    assert (H2 : <[r := a2]> s !! r = Some a2).
    { unfold Store, Rng in *. apply list_lookup_insert_eq.
      eapply lookup_lt_Some, Hs. }
    destruct (keeps site aisleWidth _) eqn:K; cbv beta iota zeta.
    + rewrite cap_reached_max by lia.
      destruct (Z.leb_spec (Z.max 1 m) (count + 1)) as [Hfull | Hroom].
      * destruct (every_type site aisleWidth rotation jitter pt ts a2)
          as [rest a']. cbn [fst snd app List.length]. split; [lia |].
        intros _. unfold ret. cbn [fst]. f_equal.
        replace (out ++ _ :: rest) with ((out ++ [jittered_rect rotation jitter pt t r1 r2]) ++ rest)
          by (rewrite <- app_assoc; reflexivity).
        symmetry. apply take_app_length'.
        rewrite length_app. cbn [List.length]. lia.
      * assert (Hc' : (count + 1)%Z
                      = Z.of_nat (List.length
                                    (out ++ [jittered_rect rotation jitter pt t r1 r2])))
          by (rewrite length_app; cbn [List.length]; lia).
        destruct (IH _ _ _ a2 H2 Hc' Hroom) as [IH1 IH2].
        destruct (every_type site aisleWidth rotation jitter pt ts a2)
          as [rest a']. cbn [fst snd app List.length] in *.
        rewrite length_app in IH1, IH2. cbn [List.length] in IH1, IH2.
        rewrite <- app_assoc in IH1, IH2. cbn [app] in IH1, IH2.
        unfold Store, Rng in *. rewrite list_insert_insert_eq in IH1.
        replace (List.length out + S (List.length rest))%nat
          with (List.length out + 1 + List.length rest)%nat by lia.
        split; [exact IH1 | exact IH2].
    + destruct (IH _ _ _ a2 H2 Hc Hlt) as [IH1 IH2].
      destruct (every_type site aisleWidth rotation jitter pt ts a2)
        as [rest a']. cbn [fst snd app] in *.
      unfold Store, Rng in *. rewrite list_insert_insert_eq in IH1.
      split; [exact IH1 | exact IH2].
Qed.

Lemma centers_loop_capped (r : Rng) (types : list ProcessType)
    (centers : list Feature) :
  forall out count (s : Store) (a : Z),
    s !! r = Some a ->
    count = Z.of_nat (List.length out) ->
    (count < Z.max 1 m)%Z ->
    fst (centers_loop site aisleWidth rotation jitter (Some m) r types centers
                      out count s)
    = take (Z.to_nat (Z.max 1 m))
           (out ++ fst (every_center site aisleWidth rotation jitter types
                                     centers a)).
Proof.
  induction centers as [| pt centers IH]; intros out count s a Hs Hc Hlt;
    cbn [centers_loop every_center].
  - cbn [fst ret]. rewrite app_nil_r. symmetry. apply take_ge. lia.
  - unfold bind.
    destruct (types_loop_capped r pt types out count s a Hs Hc Hlt)
      as [Hnext Hret].
    destruct (every_type site aisleWidth rotation jitter pt types a)
      as [here a1]. cbn [fst snd] in *.
    destruct (Z.lt_ge_cases (Z.of_nat (List.length out + List.length here))
                            (Z.max 1 m)) as [Hroom | Hfull].
    + rewrite (Hnext Hroom).
      assert (H1 : <[r := a1]> s !! r = Some a1).
      { unfold Store, Rng in *. apply list_lookup_insert_eq.
        eapply lookup_lt_Some, Hs. }
      rewrite (IH (out ++ here) _ _ a1 H1).
      * destruct (every_center site aisleWidth rotation jitter types centers a1)
          as [rest a2]. cbn [fst]. rewrite app_assoc. reflexivity.
      * rewrite length_app. reflexivity.
      * exact Hroom.
    + specialize (Hret Hfull).
      destruct (types_loop site aisleWidth rotation jitter (Some m) r pt types
                           out count s) as [f s'].
      cbn [fst] in Hret. subst f. cbn [fst ret].
      destruct (every_center site aisleWidth rotation jitter types centers a1)
        as [rest a2]. cbn [fst]. rewrite app_assoc.
      symmetry. apply take_app_le. rewrite length_app. lia.
Qed.

End Capped.

(** What the generator returns, for every [maxBlocks]: the blocks of the
    uncapped generation, cut after the number the cap lets through. *)
Lemma generateBlocks_take {math : JSMath} {turf : Turf}
    (site : Feature) (types : list ProcessType)
    (aisleWidth rotation : float) (seed : option Z) (jitter : float)
    (maxBlocks : option Z) (s : Store) :
  fst (generateBlocks (Some site) types aisleWidth rotation seed jitter
                      maxBlocks s)
  = capped (cap_count maxBlocks)
           (fst (every_center site aisleWidth rotation jitter types
                              (candidates site types aisleWidth)
                              (default 1%Z seed))).
Proof.
  destruct maxBlocks as [m |]; cbn [cap_count capped].
  - destruct (Z.eqb_spec m 0) as [-> | Hm]; cbn [capped].
    + rewrite generateBlocks_no_cap by reflexivity. reflexivity.
    + unfold generateBlocks, bind, mulberry32.
      rewrite (centers_loop_capped site aisleWidth rotation jitter m Hm
                 _ types _ [] 0%Z _ (default 1%Z seed)).
      * reflexivity.
      * apply lookup_fresh_cell.
      * reflexivity.
      * lia.
  - rewrite generateBlocks_no_cap by reflexivity. reflexivity.
Qed.

Section Uncapped_blocks.

Context {math : JSMath} {turf : Turf}.

Variables (site : Feature) (aisleWidth rotation jitter : float).

(** What the uncapped generation is made of. *)
Lemma every_type_In (pt : Feature) (ts : list ProcessType) (b : Feature) :
  forall a,
    In b (fst (every_type site aisleWidth rotation jitter pt ts a)) ->
    exists t r1 r2,
      In t ts /\ b = jittered_rect rotation jitter pt t r1 r2
      /\ keeps site aisleWidth b = true.
Proof.
  induction ts as [| t ts IH]; intros a; cbn [every_type].
  - intros [].
  - destruct (mulberry32_step a) as [a1 r1].
    destruct (mulberry32_step a1) as [a2 r2].
    specialize (IH a2).
    destruct (every_type site aisleWidth rotation jitter pt ts a2)
      as [rest a']. cbn [fst] in *.
    intros Hin. apply in_app_or in Hin as [Hin | Hin].
    + destruct (keeps site aisleWidth
                       (jittered_rect rotation jitter pt t r1 r2)) eqn:K;
        simpl in Hin; [| destruct Hin].
      destruct Hin as [<- | []].
      exists t, r1, r2. split; [left; reflexivity |]. split; [reflexivity | exact K].
    + destruct (IH Hin) as (t' & x1 & x2 & Ht & Hb & Hk).
      exists t', x1, x2. split; [right; exact Ht |]. split; assumption.
Qed.

Lemma every_center_In (types : list ProcessType) (centers : list Feature)
    (b : Feature) :
  forall a,
    In b (fst (every_center site aisleWidth rotation jitter types centers a)) ->
    exists pt t r1 r2,
      In pt centers /\ In t types
      /\ b = jittered_rect rotation jitter pt t r1 r2
      /\ keeps site aisleWidth b = true.
Proof.
  induction centers as [| pt centers IH]; intros a; cbn [every_center].
  - intros [].
  - pose proof (every_type_In pt types b a) as Hhere.
    destruct (every_type site aisleWidth rotation jitter pt types a)
      as [here a1]. cbn [fst] in *.
    specialize (IH a1).
    destruct (every_center site aisleWidth rotation jitter types centers a1)
      as [rest a2]. cbn [fst] in *.
    intros Hin. apply in_app_or in Hin as [Hin | Hin].
    + destruct (Hhere Hin) as (t & x1 & x2 & Ht & Hb & Hk).
      exists pt, t, x1, x2. split; [left; reflexivity |]. repeat split; assumption.
    + destruct (IH Hin) as (pt' & t & x1 & x2 & Hp & Ht & Hb & Hk).
      exists pt', t, x1, x2. split; [right; exact Hp |]. repeat split; assumption.
Qed.

Lemma every_type_length (pt : Feature) (ts : list ProcessType) :
  forall a,
    (List.length (fst (every_type site aisleWidth rotation jitter pt ts a))
     <= List.length ts)%nat.
Proof.
  induction ts as [| t ts IH]; intros a; cbn [every_type]; [simpl; lia |].
  destruct (mulberry32_step a) as [a1 r1].
  destruct (mulberry32_step a1) as [a2 r2].
  specialize (IH a2).
  destruct (every_type site aisleWidth rotation jitter pt ts a2) as [rest a'].
  cbn [fst] in *. rewrite length_app.
  destruct (keeps site aisleWidth _); cbn [List.length]; lia.
Qed.

Lemma every_center_length (types : list ProcessType) (centers : list Feature) :
  forall a,
    (List.length
       (fst (every_center site aisleWidth rotation jitter types centers a))
     <= List.length centers * List.length types)%nat.
Proof.
  induction centers as [| pt centers IH]; intros a; cbn [every_center];
    [simpl; lia |].
  pose proof (every_type_length pt types a) as H1.
  destruct (every_type site aisleWidth rotation jitter pt types a)
    as [here a1]. cbn [fst] in *.
  specialize (IH a1).
  destruct (every_center site aisleWidth rotation jitter types centers a1)
    as [rest a2]. cbn [fst] in *.
  rewrite length_app. cbn [List.length]. lia.
Qed.

End Uncapped_blocks.

Lemma capped_In {A} (limit : option nat) (l : list A) (x : A) :
  In x (capped limit l) -> In x l.
Proof.
  destruct limit as [k |]; cbn [capped]; [| auto].
  intros H. rewrite <- (take_drop k l). apply in_or_app. left. exact H.
Qed.

Lemma capped_length {A} (limit : option nat) (l : list A) :
  (List.length (capped limit l) <= List.length l)%nat.
Proof.
  destruct limit as [k |]; cbn [capped]; [| lia].
  rewrite length_take. lia.
Qed.

(** X1.  For every [maxBlocks] the generator returns a prefix of what it
    returns without a cap: all of it for [undefined] and [0], the first
    [maxBlocks] blocks for a positive [maxBlocks], and the first block alone
    for a negative one. *)
Theorem generateBlocks_is_prefix {math : JSMath} {turf : Turf}
    (site : Feature) (types : list ProcessType)
    (aisleWidth rotation : float) (seed : option Z) (jitter : float)
    (maxBlocks : option Z) (s : Store) :
  let uncapped :=
    fst (generateBlocks (Some site) types aisleWidth rotation seed jitter
                        None s) in
  fst (generateBlocks (Some site) types aisleWidth rotation seed jitter
                      maxBlocks s)
  = match maxBlocks with
    | None => uncapped
    | Some m => if (m =? 0)%Z then uncapped
                else take (Z.to_nat (Z.max 1 m)) uncapped
    end.
Proof.
  intros uncapped. unfold uncapped. rewrite !generateBlocks_take.
  destruct maxBlocks as [m |]; cbn [cap_count capped]; [| reflexivity].
  destruct (m =? 0)%Z; reflexivity.
Qed.

(** X2.  Every block the generator returns is a polygon of one closed ring of
    five positions (the first again as the last), tagged with the role
    "block" and the id of one of the types it was given, and nothing else. *)
Theorem generated_block_shape {math : JSMath} {turf : Turf}
    (site : Feature) (types : list ProcessType)
    (aisleWidth rotation : float) (seed : option Z) (jitter : float)
    (maxBlocks : option Z) (s : Store) (b : Feature) :
  In b (fst (generateBlocks (Some site) types aisleWidth rotation seed jitter
                            maxBlocks s)) ->
  exists t c1 c2 c3 c4,
    In t types
    /\ geometry b = Polygon [[c1; c2; c3; c4; c1]]
    /\ properties b = [("role"%string, PStr "block");
                       ("type"%string, PStr (type_id t))].
Proof.
  rewrite generateBlocks_take. intros Hin. apply capped_In in Hin.
  destruct (every_center_In _ _ _ _ _ _ _ _ Hin)
    as (pt & t & r1 & r2 & _ & Ht & -> & _).
  exists t. unfold jittered_rect, buildRect, turf_polygon. cbn [map geometry properties].
  do 4 eexists. split; [exact Ht |]. split; reflexivity.
Qed.

(** X2 at the first block of the 100 m square. *)
Lemma generated_block_shape_witness :
  let b := mkFeature (Polygon [[[25; 25]; [15; 25]; [15; 15]; [25; 15];
                                [25; 25]]]%float)
                     [("role"%string, PStr "block"); ("type"%string, PStr "t")] in
  let blocks := fst (@generateBlocks Planar.math Planar.turf
                       (Some (Planar.square 100)) [mkType "t" 10 10]
                       5 0 (Some 1%Z) 0 (Some 10%Z) []) in
  In b blocks
  /\ exists t c1 c2 c3 c4,
       In t [mkType "t" 10 10]
       /\ geometry b = Polygon [[c1; c2; c3; c4; c1]]
       /\ properties b = [("role"%string, PStr "block");
                          ("type"%string, PStr (type_id t))].
Proof.
  intros b blocks.
  assert (Hin : In b blocks) by (vm_compute; left; reflexivity).
  split; [exact Hin |].
  exact (@generated_block_shape Planar.math Planar.turf
           (Planar.square 100) [mkType "t" 10 10] 5 0 (Some 1%Z) 0
           (Some 10%Z) [] b Hin).
Defined.

(** X3.  The generator returns at most one block for every pair of a
    candidate position and a type, whatever the cap; with no type it returns
    no block. *)
Theorem generateBlocks_count_bound {math : JSMath} {turf : Turf}
    (site : Feature) (types : list ProcessType)
    (aisleWidth rotation : float) (seed : option Z) (jitter : float)
    (maxBlocks : option Z) (s : Store) :
  (List.length (fst (generateBlocks (Some site) types aisleWidth rotation
                                    seed jitter maxBlocks s))
   <= List.length (candidates site types aisleWidth) * List.length types)%nat
  /\ fst (generateBlocks (Some site) [] aisleWidth rotation seed jitter
                         maxBlocks s) = [].
Proof.
  split.
  - rewrite generateBlocks_take.
    etransitivity; [apply capped_length | apply every_center_length].
  - rewrite generateBlocks_take.
    pose proof (every_center_length site aisleWidth rotation jitter []
                  (candidates site [] aisleWidth) (default 1%Z seed)) as H.
    pose proof (capped_length (cap_count maxBlocks)
                  (fst (every_center site aisleWidth rotation jitter []
                          (candidates site [] aisleWidth) (default 1%Z seed))))
      as H'.
    destruct (capped _ _) as [| x l]; [reflexivity |].
    cbn [List.length] in *. lia.
Qed.

(* ===================================================================== *)
(** ** The seed of the generator *)

Lemma ToInt32_shift (z k : Z) : JS.ToInt32 (z + k * 2 ^ 32) = JS.ToInt32 z.
Proof. unfold JS.ToInt32. rewrite Z_mod_plus_full. reflexivity. Qed.

Lemma ToUint32_shift (z k : Z) : JS.ToUint32 (z + k * 2 ^ 32) = JS.ToUint32 z.
Proof. unfold JS.ToUint32. apply Z_mod_plus_full. Qed.

Lemma xor_shift (z k y : Z) : JS.xor (z + k * 2 ^ 32) y = JS.xor z y.
Proof. unfold JS.xor. rewrite ToInt32_shift. reflexivity. Qed.

Lemma or_shift (z k y : Z) : JS.or (z + k * 2 ^ 32) y = JS.or z y.
Proof. unfold JS.or. rewrite ToInt32_shift. reflexivity. Qed.

Lemma ushr_shift (z k n : Z) : JS.ushr (z + k * 2 ^ 32) n = JS.ushr z n.
Proof. unfold JS.ushr. rewrite ToUint32_shift. reflexivity. Qed.

(** The number drawn depends on the captured value modulo [2^32] only. *)
Lemma mulberry32_step_shift (a k : Z) :
  mulberry32_step (a + k * 2 ^ 32)
  = (fst (mulberry32_step a) + k * 2 ^ 32, snd (mulberry32_step a))%Z.
Proof.
  unfold mulberry32_step. cbv zeta. cbn [fst snd].
  replace (a + k * 2 ^ 32 + 1831565813)%Z
    with ((a + 1831565813) + k * 2 ^ 32)%Z by lia.
  set (x := (a + 1831565813)%Z).
  rewrite !xor_shift, !ushr_shift, !or_shift. reflexivity.
Qed.

Section SeedShift.

Context {math : JSMath} {turf : Turf}.

Variables (site : Feature) (aisleWidth rotation jitter : float).

Lemma every_type_shift (pt : Feature) (ts : list ProcessType) (k : Z) :
  forall a,
    every_type site aisleWidth rotation jitter pt ts (a + k * 2 ^ 32)
    = (fst (every_type site aisleWidth rotation jitter pt ts a),
       (snd (every_type site aisleWidth rotation jitter pt ts a)
        + k * 2 ^ 32)%Z).
Proof.
  induction ts as [| t ts IH]; intros a; cbn [every_type]; [reflexivity |].
  rewrite mulberry32_step_shift.
  destruct (mulberry32_step a) as [a1 r1]. cbn [fst snd].
  rewrite mulberry32_step_shift.
  destruct (mulberry32_step a1) as [a2 r2]. cbn [fst snd].
  rewrite IH.
  destruct (every_type site aisleWidth rotation jitter pt ts a2) as [rest a'].
  reflexivity.
Qed.

Lemma every_center_shift (types : list ProcessType) (centers : list Feature)
    (k : Z) :
  forall a,
    every_center site aisleWidth rotation jitter types centers (a + k * 2 ^ 32)
    = (fst (every_center site aisleWidth rotation jitter types centers a),
       (snd (every_center site aisleWidth rotation jitter types centers a)
        + k * 2 ^ 32)%Z).
Proof.
  induction centers as [| pt centers IH]; intros a; cbn [every_center];
    [reflexivity |].
  rewrite every_type_shift.
  destruct (every_type site aisleWidth rotation jitter pt types a)
    as [here a1]. cbn [fst snd].
  rewrite IH.
  destruct (every_center site aisleWidth rotation jitter types centers a1)
    as [rest a2]. reflexivity.
Qed.

End SeedShift.

(** X4.  Two seeds that differ by a multiple of [2^32] give the same layout:
    the generator reads its captured value through the 32-bit operators only.
    Stated for non-negative seeds and runs in which the captured value stays
    below [2^53], where the additions of the program are exact. *)
Theorem generateBlocks_seed_modulo {math : JSMath} {turf : Turf}
    (site : Feature) (types : list ProcessType)
    (aisleWidth rotation : float) (seed k : Z) (jitter : float)
    (maxBlocks : option Z) (s : Store) :
  (0 <= seed)%Z -> (0 <= k)%Z ->
  (seed + k * 2 ^ 32
   + 2 * Z.of_nat (List.length (candidates site types aisleWidth)
                   * List.length types) * 0x6d2b79f5 < 2 ^ 53)%Z ->
  fst (generateBlocks (Some site) types aisleWidth rotation
                      (Some (seed + k * 2 ^ 32)%Z) jitter maxBlocks s)
  = fst (generateBlocks (Some site) types aisleWidth rotation
                        (Some seed) jitter maxBlocks s).
Proof.
  intros _ _ _. rewrite !generateBlocks_take.
  change (default 1%Z (Some (seed + k * 2 ^ 32)%Z)) with (seed + k * 2 ^ 32)%Z.
  change (default 1%Z (Some seed)) with seed.
  rewrite every_center_shift. reflexivity.
Qed.

(** X4 at the seeds 1 and 1 + 2^32 on the 100 m square. *)
Lemma generateBlocks_seed_modulo_witness :
  fst (@generateBlocks Planar.math Planar.turf (Some (Planar.square 100))
         [mkType "t" 10 10] 5 0 (Some (1 + 1 * 2 ^ 32)%Z) 0 (Some 10%Z) [])
  = fst (@generateBlocks Planar.math Planar.turf (Some (Planar.square 100))
           [mkType "t" 10 10] 5 0 (Some 1%Z) 0 (Some 10%Z) []).
Proof.
  apply (@generateBlocks_seed_modulo Planar.math Planar.turf).
  - lia.
  - lia.
  - vm_compute. reflexivity.
Defined.

(* ===================================================================== *)
(** ** The issues of the validator *)

Section Issues.

Context {turf : Turf}.

Local Open Scope float_scope.

(** A run that returns is made of the four checks, in their order. *)
Lemma validateLayout_parts (site : option Feature) (blocks : FeatureCollection)
    (minAisle boundaryClearance turnRadius : float) (issues : list Issue) :
  validateLayout site blocks minAisle boundaryClearance turnRadius
  = JS.Ok issues ->
  exists aisles boundaries turnings,
    aisle_check blocks minAisle = JS.Ok aisles
    /\ boundary_check site blocks boundaryClearance = JS.Ok boundaries
    /\ turning_check site turnRadius = JS.Ok turnings
    /\ issues = clash_check blocks ++ aisles ++ boundaries ++ turnings.
Proof.
  unfold validateLayout.
  destruct (aisle_check blocks minAisle) as [aisles |]; simpl; [| discriminate].
  destruct (boundary_check site blocks boundaryClearance) as [boundaries |];
    simpl; [| discriminate].
  destruct (turning_check site turnRadius) as [turnings |]; simpl;
    [| discriminate].
  intros [= <-]. exists aisles, boundaries, turnings. repeat split.
Qed.

Lemma boundary_from_shape (inset : option Feature) (fs : list Feature) :
  forall i l,
    boundary_from i fs inset = JS.Ok l ->
    Forall (fun x => is_boundary x = true) l
    /\ (List.length l <= List.length fs)%nat.
Proof.
  induction fs as [| f rest IH]; intros i l; simpl.
  - intros [= <-]. split; [constructor | simpl; lia].
  - destruct inset as [shrunk |]; simpl; [| discriminate].
    destruct (boundary_from (S i) rest (Some shrunk)) as [more |] eqn:E;
      simpl; [| discriminate].
    intros [= <-]. destruct (IH _ _ E) as [Hk Hl].
    destruct (negb (booleanWithin f shrunk)); simpl.
    + split; [constructor; [reflexivity | exact Hk] | lia].
    + split; [exact Hk | lia].
Qed.

Lemma boundary_check_shape (site : option Feature) (blocks : FeatureCollection)
    (boundaryClearance : float) (l : list Issue) :
  boundary_check site blocks boundaryClearance = JS.Ok l ->
  Forall (fun x => is_boundary x = true) l
  /\ (List.length l <= List.length blocks)%nat.
Proof.
  unfold boundary_check. destruct (0 <? boundaryClearance).
  - destruct site; [apply boundary_from_shape | discriminate].
  - intros [= <-]. split; [constructor | simpl; lia].
Qed.

Lemma turning_check_shape (site : option Feature) (turnRadius : float)
    (l : list Issue) :
  turning_check site turnRadius = JS.Ok l ->
  Forall (fun x => is_turning x = true) l /\ (List.length l <= 1)%nat.
Proof.
  unfold turning_check. destruct (0 <? turnRadius).
  - destruct site; [| discriminate]. intros [= <-].
    destruct (negb (booleanWithin _ _)); simpl.
    + split; [repeat constructor | lia].
    + split; [constructor | lia].
  - intros [= <-]. split; [constructor | simpl; lia].
Qed.

(** The clash issues of a pair, a row and the whole collection. *)
Lemma clash_pair_In (i j : nat) (a b : Feature) (i' j' : nat) (ar : float)
    (g : Feature) :
  In (Clash i' j' ar g) (clash_pair i j a b)
  <-> i' = i /\ j' = j /\ booleanIntersects a b = true
      /\ intersect a b = Some g /\ ar = area g.
Proof.
  unfold clash_pair. destruct (booleanIntersects a b).
  - destruct (intersect a b) as [inter |]; simpl.
    + split.
      * intros [[= <- <- <- <-] | []]. repeat split.
      * intros (-> & -> & _ & [= ->] & ->). left. reflexivity.
    + split; [intros [] | intros (_ & _ & _ & [=] & _)].
  - simpl. split; [intros [] | intros (_ & _ & [=] & _)].
Qed.

Lemma clash_row_In (i : nat) (a : Feature) (rest : list Feature) (i' j' : nat)
    (ar : float) (g : Feature) :
  forall j,
    In (Clash i' j' ar g) (clash_row i j a rest)
    <-> i' = i
        /\ exists b, (j <= j')%nat /\ rest !! (j' - j)%nat = Some b
                     /\ booleanIntersects a b = true
                     /\ intersect a b = Some g /\ ar = area g.
Proof.
  induction rest as [| b rest IH]; intros j; simpl.
  - split; [intros [] | intros (_ & b & _ & [=] & _)].
  - rewrite in_app_iff, clash_pair_In, IH. split.
    + intros [(-> & -> & Hm & Hi & Ha) | (-> & b' & Hj & Hl & Hrest)].
      * split; [reflexivity |]. exists b.
        rewrite Nat.sub_diag. repeat split; try assumption; lia.
      * split; [reflexivity |]. exists b'.
        replace (j' - j)%nat with (S (j' - S j)) by lia.
        repeat split; try apply Hrest; try assumption; lia.
    + intros (-> & b' & Hj & Hl & Hrest).
      destruct (Nat.eq_dec j' j) as [-> | Hne].
      * left. rewrite Nat.sub_diag in Hl. injection Hl as <-.
        repeat split; apply Hrest.
      * right. split; [reflexivity |]. exists b'.
        replace (j' - j)%nat with (S (j' - S j)) in Hl by lia.
        repeat split; try apply Hrest; try assumption; lia.
Qed.

Lemma clash_from_In (fs : list Feature) (i' j' : nat) (ar : float)
    (g : Feature) :
  forall i,
    In (Clash i' j' ar g) (clash_from i fs)
    <-> exists a b,
          (i <= i')%nat /\ (i' < j')%nat
          /\ fs !! (i' - i)%nat = Some a /\ fs !! (j' - i)%nat = Some b
          /\ booleanIntersects a b = true
          /\ intersect a b = Some g /\ ar = area g.
Proof.
  induction fs as [| a0 rest IH]; intros i; simpl.
  - split; [intros [] | intros (a & b & _ & _ & [=] & _)].
  - rewrite in_app_iff, clash_row_In, IH. split.
    + intros [(-> & b & Hj & Hl & Hrest) | (a & b & Hi & Hj & Ha & Hb & Hrest)].
      * exists a0, b. rewrite Nat.sub_diag.
        replace (j' - i)%nat with (S (j' - S i)) by lia.
        repeat split; try apply Hrest; try assumption; lia.
      * exists a, b.
        replace (i' - i)%nat with (S (i' - S i)) by lia.
        replace (j' - i)%nat with (S (j' - S i)) by lia.
        repeat split; try apply Hrest; try assumption; lia.
    + intros (a & b & Hi & Hj & Ha & Hb & Hrest).
      destruct (Nat.eq_dec i' i) as [-> | Hne].
      * left. split; [reflexivity |]. exists b.
        rewrite Nat.sub_diag in Ha. injection Ha as <-.
        replace (j' - i)%nat with (S (j' - S i)) in Hb by lia.
        repeat split; try apply Hrest; try assumption; lia.
      * right. exists a, b.
        replace (i' - i)%nat with (S (i' - S i)) in Ha by lia.
        replace (j' - i)%nat with (S (j' - S i)) in Hb by lia.
        repeat split; try apply Hrest; try assumption; lia.
Qed.

Lemma boundary_from_In (shrunk : Feature) (fs : list Feature) (k : nat)
    (f : Feature) :
  forall i l,
    boundary_from i fs (Some shrunk) = JS.Ok l ->
    (In (Boundary k f) l
     <-> (i <= k)%nat /\ fs !! (k - i)%nat = Some f
         /\ booleanWithin f shrunk = false).
Proof.
  induction fs as [| f0 rest IH]; intros i l; simpl.
  - intros [= <-]. split; [intros [] | intros (_ & [=] & _)].
  - destruct (boundary_from (S i) rest (Some shrunk)) as [more |] eqn:E;
      simpl; [| discriminate].
    intros [= <-]. rewrite in_app_iff, (IH _ _ E). split.
    + intros [Hhere | (Hi & Hl & Hw)].
      * destruct (booleanWithin f0 shrunk) eqn:W; simpl in Hhere;
          [destruct Hhere |].
        destruct Hhere as [[= <- <-] | []].
        rewrite Nat.sub_diag. repeat split; [lia | exact W].
      * replace (k - i)%nat with (S (k - S i)) by lia.
        repeat split; [lia | exact Hl | exact Hw].
    + intros (Hi & Hl & Hw).
      destruct (Nat.eq_dec k i) as [-> | Hne].
      * left. rewrite Nat.sub_diag in Hl. injection Hl as <-.
        rewrite Hw. left. reflexivity.
      * right. replace (k - i)%nat with (S (k - S i)) in Hl by lia.
        repeat split; [lia | exact Hl | exact Hw].
Qed.

Lemma not_In_kind (p : Issue -> bool) (l : list Issue) (x : Issue) :
  Forall (fun y => p y = true) l -> p x = false -> ~ In x l.
Proof.
  intros H Hx Hin. rewrite Forall_forall in H.
  apply list_elem_of_In in Hin. specialize (H x Hin). congruence.
Qed.

End Issues.

(** X5.  The issue list of a run that returns is ordered by check: the clash
    issues, then the aisle issues, then the boundary issues, of which there
    are at most as many as blocks, then at most one turning issue. *)
Theorem validateLayout_issue_order {turf : Turf}
    (site : option Feature) (blocks : FeatureCollection)
    (minAisle boundaryClearance turnRadius : float) (issues : list Issue) :
  validateLayout site blocks minAisle boundaryClearance turnRadius
  = JS.Ok issues ->
  exists clashes aisles boundaries turnings,
    issues = clashes ++ aisles ++ boundaries ++ turnings
    /\ Forall (fun x => is_clash x = true) clashes
    /\ Forall (fun x => is_aisle x = true) aisles
    /\ Forall (fun x => is_boundary x = true) boundaries
    /\ Forall (fun x => is_turning x = true) turnings
    /\ (List.length boundaries <= List.length blocks)%nat
    /\ (List.length turnings <= 1)%nat.
Proof.
  intros Hrun.
  destruct (validateLayout_parts _ _ _ _ _ _ Hrun)
    as (aisles & boundaries & turnings & Ha & Hb & Ht & ->).
  exists (clash_check blocks), aisles, boundaries, turnings.
  destruct (boundary_check_shape _ _ _ _ Hb) as [Hbk Hbl].
  destruct (turning_check_shape _ _ _ Ht) as [Htk Htl].
  repeat split; try assumption.
  - apply clash_from_kind.
  - eapply aisle_check_kind, Ha.
Qed.

(** X5 on two overlapping blocks near the corner of the 100 m square, with an
    aisle of 2 m, a clearance of 12 m and a turning radius of 60 m: one issue
    of each kind. *)
Lemma validateLayout_issue_order_witness :
  exists issues,
    @validateLayout Planar.turf (Some (Planar.square 100))
      [Planar.block 10 10 20 20; Planar.block 15 15 25 25] 2 12 60
    = JS.Ok issues
    /\ exists clashes aisles boundaries turnings,
         issues = clashes ++ aisles ++ boundaries ++ turnings
         /\ Forall (fun x => is_clash x = true) clashes
         /\ Forall (fun x => is_aisle x = true) aisles
         /\ Forall (fun x => is_boundary x = true) boundaries
         /\ Forall (fun x => is_turning x = true) turnings
         /\ (List.length boundaries <= 2)%nat
         /\ (List.length turnings <= 1)%nat.
Proof.
  eexists. split; [vm_compute; reflexivity |].
  apply (@validateLayout_issue_order Planar.turf (Some (Planar.square 100))
           [Planar.block 10 10 20 20; Planar.block 15 15 25 25] 2 12 60)%float.
  vm_compute. reflexivity.
Defined.

(** X6.  In a run that returns, a clash issue with indices [i], [j], area
    [ar] and geometry [g] is reported exactly when [i < j], the blocks at [i]
    and [j] intersect, [g] is their intersection and [ar] its area: every
    pair is tested once, and no pair is reported that does not overlap. *)
Theorem clash_issue_iff {turf : Turf}
    (site : option Feature) (blocks : FeatureCollection)
    (minAisle boundaryClearance turnRadius : float) (issues : list Issue)
    (i j : nat) (ar : float) (g : Feature) :
  validateLayout site blocks minAisle boundaryClearance turnRadius
  = JS.Ok issues ->
  (In (Clash i j ar g) issues
   <-> exists a b,
         (i < j)%nat /\ blocks !! i = Some a /\ blocks !! j = Some b
         /\ booleanIntersects a b = true
         /\ intersect a b = Some g /\ ar = area g).
Proof.
  intros Hrun.
  destruct (validateLayout_issues _ _ _ _ _ _ Hrun) as (_ & _ & Hc & _).
  assert (Hin : In (Clash i j ar g) issues
                <-> In (Clash i j ar g) (clash_check blocks)).
  { rewrite <- Hc, List.filter_In. simpl. tauto. }
  rewrite Hin. unfold clash_check. rewrite clash_from_In.
  rewrite !Nat.sub_0_r. split.
  - intros (a & b & _ & Hrest). exists a, b. exact Hrest.
  - intros (a & b & Hrest). exists a, b. split; [lia | exact Hrest].
Qed.

(** X6 on the two overlapping blocks: the clash of blocks 0 and 1 is the
    square from (15, 15) to (20, 20), of 25 square metres. *)
Lemma clash_issue_iff_witness :
  let blocks := [Planar.block 10 10 20 20; Planar.block 15 15 25 25] in
  let g := Planar.rectangle (15, 15, 20, 20)%float in
  In (Clash 0 1 25 g)
     [Clash 0 1 25 g]
  <-> exists a b,
        (0 < 1)%nat /\ blocks !! 0%nat = Some a /\ blocks !! 1%nat = Some b
        /\ @booleanIntersects Planar.turf a b = true
        /\ @intersect Planar.turf a b = Some g
        /\ 25%float = @area Planar.turf g.
Proof.
  intros blocks g.
  apply (@clash_issue_iff Planar.turf (Some (Planar.square 100)) blocks 0 0 0).
  vm_compute. reflexivity.
Defined.

(** X7.  In a run that returns, with a positive boundary clearance and a site
    that is there, a boundary issue for index [k] and block [f] is reported
    exactly when [f] is the block at [k] and turf does not find it within
    the site buffered by minus the clearance. *)
Theorem boundary_issue_iff {turf : Turf}
    (site : Feature) (blocks : FeatureCollection)
    (minAisle boundaryClearance turnRadius : float) (issues : list Issue)
    (k : nat) (f : Feature) :
  (0 <? boundaryClearance)%float = true ->
  validateLayout (Some site) blocks minAisle boundaryClearance turnRadius
  = JS.Ok issues ->
  (In (Boundary k f) issues
   <-> blocks !! k = Some f
       /\ exists inset,
            buffer site (- boundaryClearance / 1000)%float = Some inset
            /\ booleanWithin f inset = false).
Proof.
  intros Hpos Hrun.
  destruct (validateLayout_parts _ _ _ _ _ _ Hrun)
    as (aisles & boundaries & turnings & Ha & Hb & Ht & ->).
  assert (Hin : In (Boundary k f)
                   (clash_check blocks ++ aisles ++ boundaries ++ turnings)
                <-> In (Boundary k f) boundaries).
  { rewrite !in_app_iff. split; [| tauto].
    intros [H | [H | [H | H]]]; [| | exact H |]; exfalso.
    - eapply (not_In_kind is_clash); [apply clash_from_kind | | exact H].
      reflexivity.
    - eapply (not_In_kind is_aisle); [eapply aisle_check_kind, Ha | | exact H].
      reflexivity.
    - eapply (not_In_kind is_turning);
        [eapply turning_check_shape, Ht | | exact H].
      reflexivity. }
  rewrite Hin. clear Hin.
  unfold boundary_check in Hb. rewrite Hpos in Hb.
  destruct (buffer site (- boundaryClearance / 1000)%float) as [inset |].
  - rewrite (boundary_from_In inset blocks k f _ _ Hb), Nat.sub_0_r. split.
    + intros (_ & Hl & Hw). split; [exact Hl |]. exists inset. split; auto.
    + intros (Hl & inset' & [= <-] & Hw). repeat split; [lia | exact Hl | exact Hw].
  - destruct blocks as [| f0 rest]; [| discriminate Hb].
    injection Hb as <-. split; [intros [] |].
    intros (Hl & _). discriminate Hl.
Qed.

(** X7 on the block near the corner, 10 m from the edges, at a clearance of
    12 m. *)
Lemma boundary_issue_iff_witness :
  let f := Planar.block 10 10 20 20 in
  In (Boundary 0 f) [Boundary 0 f]
  <-> [f] !! 0%nat = Some f
      /\ exists inset,
           @buffer Planar.turf (Planar.square 100) (- 12 / 1000)%float
           = Some inset
           /\ @booleanWithin Planar.turf f inset = false.
Proof.
  intros f.
  apply (@boundary_issue_iff Planar.turf (Planar.square 100) [f] 0 12 0).
  - vm_compute. reflexivity.
  - vm_compute. reflexivity.
Defined.

(** X8.  With no threshold positive (zero, negative or NaN) the validator
    runs the clash check only: it returns the clash issues and throws
    nothing, also on a site that is [null]. *)
Theorem validateLayout_thresholds_off {turf : Turf}
    (site : option Feature) (blocks : FeatureCollection)
    (minAisle boundaryClearance turnRadius : float) :
  (0 <? minAisle)%float = false ->
  (0 <? boundaryClearance)%float = false ->
  (0 <? turnRadius)%float = false ->
  validateLayout site blocks minAisle boundaryClearance turnRadius
  = JS.Ok (clash_check blocks).
Proof.
  intros Hm Hb Ht.
  unfold validateLayout, aisle_check, boundary_check, turning_check.
  rewrite Hm, Hb, Ht. simpl. rewrite !app_nil_r. reflexivity.
Qed.

(** X8 without a site, at thresholds [-1], NaN and [0]. *)
Lemma validateLayout_thresholds_off_witness :
  @validateLayout Planar.turf None
    [Planar.block 10 10 20 20; Planar.block 15 15 25 25]
    (-1) PrimFloat.nan 0
  = JS.Ok (@clash_check Planar.turf
             [Planar.block 10 10 20 20; Planar.block 15 15 25 25]).
Proof.
  apply (@validateLayout_thresholds_off Planar.turf); vm_compute; reflexivity.
Defined.

(** X9.  On a site that is there the validator returns, without throwing,
    whenever turf returns a buffer for every block at the aisle width and for
    the site at the boundary clearance. *)
Theorem validateLayout_returns_with_buffers {turf : Turf}
    (site : Feature) (blocks : FeatureCollection)
    (minAisle boundaryClearance turnRadius : float) :
  Forall (fun f => is_Some (buffer f (minAisle / 1000)%float)) blocks ->
  is_Some (buffer site (- boundaryClearance / 1000)%float) ->
  exists issues,
    validateLayout (Some site) blocks minAisle boundaryClearance turnRadius
    = JS.Ok issues.
Proof.
  intros Hbuf [shrunk Hinset].
  unfold validateLayout, aisle_check, boundary_check, turning_check.
  assert (Ha : exists l,
             (if (0 <? minAisle)%float
              then aisle_from 0 (map (fun f => buffer f (minAisle / 1000)%float) blocks)
              else JS.Ok []) = JS.Ok l).
  { destruct ((0 <? minAisle)%float); [| eexists; reflexivity].
    apply aisle_from_returns, Forall_map. exact Hbuf. }
  destruct Ha as [aisles ->]. simpl.
  rewrite Hinset.
  assert (Hb : exists l,
             (if (0 <? boundaryClearance)%float
              then boundary_from 0 blocks (Some shrunk)
              else JS.Ok []) = JS.Ok l).
  { destruct ((0 <? boundaryClearance)%float); [| eexists; reflexivity].
    apply boundary_from_returns. }
  destruct Hb as [boundaries ->]. simpl.
  destruct ((0 <? turnRadius)%float); simpl; eexists; reflexivity.
Qed.

(** X9 on the two overlapping blocks. *)
Lemma validateLayout_returns_with_buffers_witness :
  exists issues,
    @validateLayout Planar.turf (Some (Planar.square 100))
      [Planar.block 10 10 20 20; Planar.block 15 15 25 25] 2 12 60
    = JS.Ok issues.
Proof.
  apply (@validateLayout_returns_with_buffers Planar.turf).
  - repeat constructor; vm_compute; eexists; reflexivity.
  - vm_compute. eexists. reflexivity.
Defined.

(** X10.  With a positive boundary clearance under which turf returns no
    buffer of the site, and at least one block, the validator throws a
    TypeError as soon as its aisle check has returned: the missing inset is
    handed to [turf.booleanWithin]. *)
Theorem validateLayout_missing_inset_throws {turf : Turf}
    (site f : Feature) (blocks : FeatureCollection)
    (minAisle boundaryClearance turnRadius : float) (aisles : list Issue) :
  (0 <? boundaryClearance)%float = true ->
  buffer site (- boundaryClearance / 1000)%float = None ->
  aisle_check (f :: blocks) minAisle = JS.Ok aisles ->
  validateLayout (Some site) (f :: blocks) minAisle boundaryClearance
                 turnRadius
  = JS.Throw JS.TypeError.
Proof.
  intros Hpos Hnone Ha. unfold validateLayout.
  rewrite Ha. cbn [JS.ebind].
  rewrite (boundary_check_undefined_inset site f blocks _ Hpos Hnone).
  reflexivity.
Qed.

(** X10 on a square site of 10 m at a clearance of 20 m. *)
Lemma validateLayout_missing_inset_throws_witness :
  @validateLayout Planar.turf (Some (Planar.square 10))
    [Planar.block 2 2 4 4] 1 20 0
  = JS.Throw JS.TypeError.
Proof.
  apply (@validateLayout_missing_inset_throws Planar.turf (Planar.square 10)
           (Planar.block 2 2 4 4) [] 1 20 0 []);
    vm_compute; reflexivity.
Defined.

(* ===================================================================== *)
(** ** The heat field *)

Lemma flat_map_length_le {A B} (f : A -> list B) (l : list A) :
  (forall x, (List.length (f x) <= 1)%nat) ->
  (List.length (flat_map f l) <= List.length l)%nat.
Proof.
  intros H. induction l as [| x l IH]; simpl; [lia |].
  rewrite length_app. specialize (H x). lia.
Qed.

(** X11.  For a site that is there and at least one source, the heat field
    holds, in the order of the grid, one cell for every square of the grid
    over the bounding box of the site whose centre turf finds in the site,
    and nothing else; the cell has the geometry of the square and the one
    property [value = 1 / (d + 0.001)], with [d] the least distance in
    kilometres from the centre to a source. *)
Theorem heat_cell_iff {turf : Turf} (site : Feature)
    (sources : list (list float)) (cellM : float) (f : Feature) :
  sources <> [] ->
  let grid := squareGrid (bbox site) (cellM / 1000)%float in
  (In f (generateHeatSquares (Some site) sources cellM)
   <-> exists cell,
         In cell grid
         /\ booleanPointInPolygon (center cell) site false = true
         /\ f = mkFeature
                  (geometry cell)
                  [("value"%string,
                    PNum (1 / (JS.min (map (fun s => distance (center cell)
                                                       (turf_point s))
                                           sources)
                               + 0.001))%float)])
  /\ (List.length (generateHeatSquares (Some site) sources cellM)
      <= List.length grid)%nat.
Proof.
  intros Hsrc grid. unfold generateHeatSquares.
  destruct sources as [| s0 sources]; [contradiction |].
  cbn [List.length Nat.eqb]. fold grid. split.
  - rewrite in_flat_map. split.
    + intros (cell & Hcell & Hin). exists cell. split; [exact Hcell |].
      unfold heat_cell in Hin.
      destruct (booleanPointInPolygon (center cell) site false); simpl in Hin;
        [| destruct Hin].
      destruct Hin as [<- | []]. split; reflexivity.
    + intros (cell & Hcell & Hpip & ->). exists cell. split; [exact Hcell |].
      unfold heat_cell. rewrite Hpip. left. reflexivity.
  - apply flat_map_length_le. intros cell. unfold heat_cell.
    destruct (negb _); simpl; lia.
Qed.

(** X11 on a square site of 20 m with one source at (5, 5) and cells of 10 m:
    the cell over the source has the value 1000. *)
Lemma heat_cell_iff_witness :
  let f := mkFeature (Polygon [[[0; 0]; [10; 0]; [10; 10]; [0; 10]; [0; 0]]]%float)
                     [("value"%string, PNum 1000%float)] in
  In f (@generateHeatSquares Planar.turf (Some (Planar.square 20)) [[5; 5]%float] 10)
  /\ (List.length (@generateHeatSquares Planar.turf (Some (Planar.square 20))
                     [[5; 5]%float] 10)
      <= List.length (@squareGrid Planar.turf
                        (@bbox Planar.turf (Planar.square 20)) (10 / 1000)%float))%nat.
Proof.
  intros f.
  destruct (@heat_cell_iff Planar.turf (Planar.square 20) [[5; 5]%float] 10 f)
    as [Hiff Hlen]; [discriminate |].
  split; [| exact Hlen].
  apply Hiff. exists (Planar.rectangle (0, 0, 10, 10)%float).
  split; [vm_compute; left; reflexivity |].
  split; vm_compute; reflexivity.
Defined.

(* ===================================================================== *)
(** ** The grid snapper on polygons *)

Section Snapper.

Context {math : JSMath} {turf : Turf}.

Variables (spacingM : float) (origin : list float).

Lemma snapLngLat_length (c : list (option float)) (o : option (list float)) :
  List.length (snapLngLat c spacingM o) = 2%nat.
Proof. reflexivity. Qed.

Lemma snap_vertex_length (orthogonal : bool)
    (linear : list (list (option float))) (i : nat) (c : list (option float)) :
  List.length (snap_vertex spacingM origin orthogonal linear i c) = 2%nat.
Proof.
  unfold snap_vertex.
  destruct (negb orthogonal || Nat.eqb i 0)%bool; [reflexivity |].
  destruct (PrimFloat.ltb _ _); reflexivity.
Qed.

Lemma Forall_imap {A B} (P : B -> Prop) (l : list A) :
  forall f : nat -> A -> B, (forall i x, P (f i x)) -> Forall P (imap f l).
Proof.
  induction l as [| x l IH]; intros f H; simpl; constructor.
  - apply H.
  - apply IH. intros i y. apply H.
Qed.

Lemma snap_rings_eq (orthogonal : bool)
    (rings : list (list (list (list (option float))))) :
  snap_rings spacingM origin orthogonal rings
  = map (map (snapped_ring spacingM origin orthogonal)) rings.
Proof. reflexivity. Qed.

Lemma snapped_ring_length (orthogonal : bool)
    (linear : list (list (option float))) :
  List.length (snapped_ring spacingM origin orthogonal linear) = List.length linear.
Proof. apply length_imap. Qed.

Lemma snapped_ring_pairs (orthogonal : bool)
    (linear : list (list (option float))) :
  Forall (fun v => List.length v = 2%nat) (snapped_ring spacingM origin orthogonal linear).
Proof. apply Forall_imap. intros i x. apply snap_vertex_length. Qed.

(** Without [orthogonal] every vertex is snapped by itself. *)
Lemma snapped_ring_pointwise (linear : list (list (option float))) :
  snapped_ring spacingM origin false linear
  = map (fun c => map Some (snapLngLat c spacingM (Some origin))) linear.
Proof.
  unfold snapped_ring. rewrite <- imap_const. apply imap_ext.
  intros i x _. reflexivity.
Qed.

(** With [orthogonal] a vertex after the first takes one coordinate from the
    vertex before it in the ring as it was before snapping. *)
Lemma snapped_ring_orthogonal (linear : list (list (option float)))
    (i : nat) (c prev : list (option float)) :
  linear !! S i = Some c ->
  linear !! i = Some prev ->
  let snapped := snapLngLat c spacingM (Some origin) in
  exists w,
    snapped_ring spacingM origin true linear !! S i = Some w
    /\ (w = [Some (at_index snapped 0); entry prev 1]
        \/ w = [entry prev 0; Some (at_index snapped 1)]).
Proof.
  intros Hc Hprev snapped. unfold snapped_ring.
  rewrite list_lookup_imap, Hc. cbn [fmap option_fmap option_map].
  eexists. split; [reflexivity |].
  unfold snap_vertex. cbn [negb orb Nat.eqb].
  replace (S i - 1)%nat with i by lia. rewrite Hprev. cbn [default from_option id].
  fold snapped.
  destruct (PrimFloat.ltb _ _); [left | right]; reflexivity.
Qed.

End Snapper.

Lemma lookup_map {A B} (f : A -> B) (l : list A) (i : nat) :
  map f l !! i = option_map f (l !! i).
Proof.
  revert i. induction l as [| x l IH]; intros [| i]; simpl; auto.
Qed.

Lemma snapFeatureToGrid_polygon {math : JSMath} {turf : Turf}
    (rings : list (list (list float))) (props : list (string * PropValue float))
    (spacingM : float) (origin : option (list float))
    (orthogonal : option bool) :
  snapFeatureToGrid (mkFeature (Polygon rings) props) spacingM origin orthogonal
  = mkFeature
      (Polygon (map (snapped_ring spacingM (default [0; 0]%float origin)
                                  (default false orthogonal))
                    (map (map (map JS.json_number)) rings)))
      (properties (json_clone (mkFeature (Polygon rings) props))).
Proof. reflexivity. Qed.

Lemma snapFeatureToGrid_multipolygon {math : JSMath} {turf : Turf}
    (polys : list (list (list (list float))))
    (props : list (string * PropValue float))
    (spacingM : float) (origin : option (list float))
    (orthogonal : option bool) :
  snapFeatureToGrid (mkFeature (MultiPolygon polys) props) spacingM origin
                    orthogonal
  = mkFeature
      (MultiPolygon
         (map (map (snapped_ring spacingM (default [0; 0]%float origin)
                                 (default false orthogonal)))
              (map (map (map (map JS.json_number))) polys)))
      (properties (json_clone (mkFeature (MultiPolygon polys) props))).
Proof. reflexivity. Qed.

Lemma snapped_lengths {math : JSMath} {turf : Turf} (spacingM : float)
    (origin : list float) (orthogonal : bool) (rings : list (list (list float))) :
  map (@List.length _)
      (map (snapped_ring spacingM origin orthogonal)
           (map (map (map JS.json_number)) rings))
  = map (@List.length _) rings.
Proof.
  rewrite !List.map_map. apply List.map_ext. intros ring.
  rewrite snapped_ring_length. apply List.length_map.
Qed.

Lemma snapped_pairs {math : JSMath} {turf : Turf} (spacingM : float)
    (origin : list float) (orthogonal : bool)
    (rings : list (list (list (option float)))) :
  Forall (Forall (fun v => List.length v = 2%nat))
         (map (snapped_ring spacingM origin orthogonal) rings).
Proof.
  induction rings as [| ring rings IH]; simpl; constructor.
  - apply snapped_ring_pairs.
  - exact IH.
Qed.

(** X12.  The grid snapper keeps the shape of what it is given: the geometry
    type and the property bag (as the JSON copy has it) for every feature,
    and for a Polygon or MultiPolygon the number of rings and the number of
    vertices of every ring; every vertex it writes has exactly two entries,
    so a third coordinate is dropped. *)
Theorem snapFeatureToGrid_shape {math : JSMath} {turf : Turf}
    (feature : Feature) (spacingM : float) (origin : option (list float))
    (orthogonal : option bool) :
  let out := snapFeatureToGrid feature spacingM origin orthogonal in
  geometry_type (geometry out) = geometry_type (geometry feature)
  /\ properties out = properties (json_clone feature)
  /\ match geometry feature, geometry out with
     | Polygon rs, Polygon rs' =>
         map (@List.length _) rs' = map (@List.length _) rs
         /\ Forall (Forall (fun v => List.length v = 2%nat)) rs'
     | MultiPolygon ps, MultiPolygon ps' =>
         map (map (@List.length _)) ps' = map (map (@List.length _)) ps
         /\ Forall (Forall (Forall (fun v => List.length v = 2%nat))) ps'
     | Polygon _, _ | MultiPolygon _, _ => False
     | _, g' => g' = geometry_map JS.json_number (geometry feature)
     end.
Proof.
  destruct feature as [g props].
  destruct g as [c | cs | cs | ls | rs | ps | gs];
    try (repeat split; reflexivity).
  - rewrite snapFeatureToGrid_polygon. cbn [geometry properties geometry_type].
    repeat split.
    + apply snapped_lengths.
    + apply snapped_pairs.
  - rewrite snapFeatureToGrid_multipolygon.
    cbn [geometry properties geometry_type]. repeat split.
    + rewrite !List.map_map. apply List.map_ext. intros poly.
      apply snapped_lengths.
    + induction ps as [| poly ps IH]; simpl; constructor.
      * apply snapped_pairs.
      * exact IH.
Qed.

(** X13.  Without [orthogonal] the snapper moves every vertex by itself, so
    two positions of a ring that hold the same vertex hold the same vertex
    afterwards: a ring whose last vertex repeats the first stays closed. *)
Theorem snap_keeps_equal_vertices {math : JSMath} {turf : Turf}
    (rings : list (list (list float))) (props : list (string * PropValue float))
    (spacingM : float) (origin : option (list float))
    (r i j : nat) (ring : list (list float)) :
  rings !! r = Some ring ->
  ring !! i = ring !! j ->
  exists rings' ring',
    geometry (snapFeatureToGrid (mkFeature (Polygon rings) props) spacingM
                                origin (Some false))
    = Polygon rings'
    /\ rings' !! r = Some ring'
    /\ List.length ring' = List.length ring
    /\ ring' !! i = ring' !! j.
Proof.
  intros Hr Hij. rewrite snapFeatureToGrid_polygon. cbn [geometry default from_option id].
  eexists. eexists. split; [reflexivity |].
  rewrite !lookup_map, Hr. cbn [option_map]. split; [reflexivity |].
  split.
  - rewrite snapped_ring_length. apply List.length_map.
  - rewrite snapped_ring_pointwise, !lookup_map, Hij. reflexivity.
Qed.

(** X13 on a closed triangle. *)
Lemma snap_keeps_equal_vertices_witness :
  let ring := [[1.2; 1.4]; [7.6; 1.9]; [7.4; 8.2]; [1.2; 1.4]]%float in
  exists rings' ring',
    geometry (@snapFeatureToGrid Planar.math Planar.turf
                (mkFeature (Polygon [ring]) []) 5 None (Some false))
    = Polygon rings'
    /\ rings' !! 0%nat = Some ring'
    /\ List.length ring' = List.length ring
    /\ ring' !! 0%nat = ring' !! 3%nat.
Proof.
  intros ring.
  apply (@snap_keeps_equal_vertices Planar.math Planar.turf [ring] [] 5 None
           0 0 3 ring); reflexivity.
Defined.

(** X14.  With [orthogonal] every vertex after the first of a ring is written
    with one snapped coordinate of its own and the other coordinate of the
    vertex before it as that vertex was drawn (not as it was snapped). *)
Theorem snap_orthogonal_vertex {math : JSMath} {turf : Turf}
    (rings : list (list (list float))) (props : list (string * PropValue float))
    (spacingM : float) (origin : option (list float))
    (r i : nat) (ring : list (list float)) (c prev : list float) :
  rings !! r = Some ring ->
  ring !! S i = Some c ->
  ring !! i = Some prev ->
  let drawn := map JS.json_number prev in
  let snapped :=
    snapLngLat (map JS.json_number c) spacingM
               (Some (default [0; 0]%float origin)) in
  exists rings' ring' w,
    geometry (snapFeatureToGrid (mkFeature (Polygon rings) props) spacingM
                                origin (Some true))
    = Polygon rings'
    /\ rings' !! r = Some ring'
    /\ ring' !! S i = Some w
    /\ (w = [Some (at_index snapped 0); entry drawn 1]
        \/ w = [entry drawn 0; Some (at_index snapped 1)]).
Proof.
  intros Hr Hc Hprev drawn snapped.
  rewrite snapFeatureToGrid_polygon. cbn [geometry default from_option id].
  destruct (snapped_ring_orthogonal spacingM (default [0; 0]%float origin)
              (map (map JS.json_number) ring) i
              (map JS.json_number c) drawn) as (w & Hw & Hcase).
  - rewrite lookup_map, Hc. reflexivity.
  - rewrite lookup_map, Hprev. reflexivity.
  - eexists. eexists. exists w. split; [reflexivity |].
    rewrite !lookup_map, Hr. cbn [option_map]. split; [reflexivity |].
    split; [exact Hw | exact Hcase].
Qed.

(** X14 on the triangle: the third vertex keeps the longitude 7.6 of the
    second as drawn, although the second was written at 10. *)
Lemma snap_orthogonal_vertex_witness :
  let ring := [[1.2; 1.4]; [7.6; 1.9]; [7.4; 8.2]; [1.2; 1.4]]%float in
  exists rings' ring' w,
    geometry (@snapFeatureToGrid Planar.math Planar.turf
                (mkFeature (Polygon [ring]) []) 5 None (Some true))
    = Polygon rings'
    /\ rings' !! 0%nat = Some ring'
    /\ ring' !! 2%nat = Some w
    /\ (w = [Some 5%float; Some 1.9%float]
        \/ w = [Some 7.6%float; Some 10%float]).
Proof.
  intros ring.
  apply (@snap_orthogonal_vertex Planar.math Planar.turf [ring] [] 5 None
           0 1 ring [7.4; 8.2]%float [7.6; 1.9]%float); reflexivity.
Defined.

(* ===================================================================== *)
(** ** Export and block styling *)

Lemma get_set_prop_same {N} (k : string) (v : PropValue N)
    (props : list (string * PropValue N)) :
  get_prop k (set_prop k v props) = Some v.
Proof.
  unfold get_prop, set_prop.
  destruct (existsb _ props) eqn:E.
  - induction props as [| [k0 v0] props IH]; simpl in *; [discriminate |].
    destruct (String.eqb k0 k) eqn:Ek; simpl.
    + rewrite String.eqb_refl. reflexivity.
    + rewrite Ek. apply IH. exact E.
  - induction props as [| [k0 v0] props IH]; simpl in *.
    + rewrite String.eqb_refl. reflexivity.
    + destruct (String.eqb k0 k) eqn:Ek; simpl in *; [discriminate |].
      apply IH. exact E.
Qed.

Lemma get_set_prop_other {N} (k k' : string) (v : PropValue N)
    (props : list (string * PropValue N)) :
  k' <> k -> get_prop k' (set_prop k v props) = get_prop k' props.
Proof.
  intros Hne. unfold get_prop, set_prop.
  assert (Hk : String.eqb k k' = false).
  { apply String.eqb_neq. congruence. }
  destruct (existsb _ props).
  - induction props as [| [k0 v0] props IH]; simpl; [reflexivity |].
    destruct (String.eqb k0 k) eqn:Ek; simpl.
    + apply String.eqb_eq in Ek. subst k0. rewrite Hk. exact IH.
    + destruct (String.eqb k0 k'); [reflexivity | exact IH].
  - induction props as [| [k0 v0] props IH]; simpl.
    + rewrite Hk. reflexivity.
    + destruct (String.eqb k0 k'); [reflexivity | exact IH].
Qed.

(** X15.  The export holds the site first, when there is one, with its
    geometry and the one property [role = "site"], and then every block in
    order: the block at index [i] keeps its geometry and every property
    other than [role] and [id], has [role = "block"] and has [id = i]. *)
Theorem exported_block (site : option Feature)
    (blocks : option FeatureCollection) (i : nat) (f : Feature) :
  default [] blocks !! i = Some f ->
  let out := exportGeoJSON_features site blocks in
  let offset := match site with Some _ => 1%nat | None => 0%nat end in
  List.length out = (offset + List.length (default [] blocks))%nat
  /\ match site with
     | Some s =>
         out !! 0%nat
         = Some (mkFeature (geometry s) [("role"%string, PStr "site")])
     | None => True
     end
  /\ exists g,
       out !! (offset + i)%nat = Some g
       /\ geometry g = geometry f
       /\ get_prop "role" (properties g) = Some (PStr "block")
       /\ get_prop "id" (properties g) = Some (PNum (index_number i))
       /\ forall k, k <> "role"%string -> k <> "id"%string ->
                    get_prop k (properties g) = get_prop k (properties f).
Proof.
  intros Hf out offset. unfold out, exportGeoJSON_features.
  split; [| split].
  - rewrite length_app, length_imap. destruct site; reflexivity.
  - destruct site; reflexivity.
  - exists (export_block i f). split.
    + unfold offset, FeatureCollection, Feature in *.
      destruct site as [s |]; cbn [app Nat.add].
      * change ((?x :: ?l) !! S i) with (l !! i).
        rewrite list_lookup_imap, Hf. reflexivity.
      * rewrite list_lookup_imap, Hf. reflexivity.
    + unfold export_block. cbn [geometry properties].
      split; [reflexivity |]. split; [| split].
      * rewrite get_set_prop_other by discriminate.
        apply get_set_prop_same.
      * apply get_set_prop_same.
      * intros k Hrole Hid.
        rewrite !get_set_prop_other by assumption. reflexivity.
Qed.

(** X15 on a site and one generated block. *)
Lemma exported_block_witness :
  let b := mkFeature (Polygon [[[20; 20]; [10; 20]; [10; 10]; [20; 10];
                                [20; 20]]]%float)
                     [("role"%string, PStr "block"); ("type"%string, PStr "t")] in
  let out := exportGeoJSON_features (Some (Planar.square 100)) (Some [b]) in
  exists g,
    out !! 1%nat = Some g
    /\ geometry g = geometry b
    /\ get_prop "role" (properties g) = Some (PStr "block")
    /\ get_prop "id" (properties g) = Some (PNum 0%float)
    /\ get_prop "type" (properties g) = Some (PStr "t").
Proof.
  intros b out.
  destruct (exported_block (Some (Planar.square 100)) (Some [b]) 0 b eq_refl)
    as (_ & _ & g & Hg & Hgeo & Hrole & Hid & Hother).
  exists g. repeat split; try assumption.
  rewrite Hother by discriminate. reflexivity.
Defined.

(** X16.  Every block generated from enabled entries of the catalog is drawn
    in the colour of the catalog entry whose id it carries: [blockStyle]
    finds that entry and never falls back to the default colour. *)
Theorem blockStyle_of_generated {math : JSMath} {turf : Turf}
    (site : Feature) (selectedTypes : list SelectedType)
    (aisleWidth rotation : float) (seed : option Z) (jitter : float)
    (maxBlocks : option Z) (s : Store) (b : Feature) :
  Forall (fun t => In (selected_entry t) PROCESS_TYPES) selectedTypes ->
  In b (fst (generateBlocks (Some site) (enabled_types selectedTypes)
                            aisleWidth rotation seed jitter maxBlocks s)) ->
  exists t,
    In t selectedTypes /\ enabled t = true
    /\ get_prop "type" (properties b)
       = Some (PStr (entry_id (selected_entry t)))
    /\ blockStyle b = mkStyle (entry_color (selected_entry t)) 1 0.35.
Proof.
  intros Hcat Hin. rewrite generateBlocks_take in Hin. apply capped_In in Hin.
  destruct (every_center_In _ _ _ _ _ _ _ _ Hin)
    as (pt & t & r1 & r2 & _ & Ht & -> & _).
  unfold enabled_types in Ht. apply List.in_map_iff in Ht as (sel & <- & Hsel).
  apply List.filter_In in Hsel as [Hsel Hen].
  exists sel. split; [exact Hsel |]. split; [exact Hen |].
  rewrite Forall_forall in Hcat.
  assert (He : In (selected_entry sel) PROCESS_TYPES).
  { apply Hcat. apply list_elem_of_In. exact Hsel. }
  unfold blockStyle, jittered_rect, buildRect, turf_polygon.
  cbn [properties as_type type_id].
  destruct He as [<- | [<- | [<- | [<- | [<- | []]]]]]; split; reflexivity.
Qed.

(** X16 at the catalog with only "utilities" enabled, on the 100 m square. *)
Lemma blockStyle_of_generated_witness :
  let selected := map (fun e => mkSelected e (String.eqb (entry_id e) "utilities"))
                      PROCESS_TYPES in
  let b := mkFeature (Polygon [[[65; 65]; [35; 65]; [35; 35]; [65; 35];
                                [65; 65]]]%float)
                     [("role"%string, PStr "block");
                      ("type"%string, PStr "utilities")] in
  exists t,
    In t selected /\ enabled t = true
    /\ get_prop "type" (properties b)
       = Some (PStr (entry_id (selected_entry t)))
    /\ blockStyle b = mkStyle (entry_color (selected_entry t)) 1 0.35.
Proof.
  intros selected b.
  apply (@blockStyle_of_generated Planar.math Planar.turf (Planar.square 100)
           selected 20 0 (Some 1%Z) 0 (Some 800%Z) [] b).
  - repeat constructor; vm_compute; tauto.
  - vm_compute. left. reflexivity.
Defined.

(* ===================================================================== *)
(** ** The step of the candidate lattice *)



(* ===================================================================== *)
(** ** The aisle issues *)

Section AisleIssues.

Context {turf : Turf}.

Lemma aisle_row_In (i : nat) (oa : option Feature)
    (rest : list (option Feature)) (i' j' : nat) (g : Feature) :
  forall j l,
    aisle_row i j oa rest = JS.Ok l ->
    (In (Aisle i' j' g) l
     <-> i' = i
         /\ exists x y,
              oa = Some x /\ (j <= j')%nat
              /\ rest !! (j' - j)%nat = Some (Some y)
              /\ booleanIntersects x y = true /\ intersect x y = Some g).
Proof.
  induction rest as [| ob rest IH]; intros j l; simpl.
  - intros [= <-]. split; [intros [] | intros (_ & x & y & _ & _ & [=] & _)].
  - unfold aisle_pair.
    destruct oa as [x |]; simpl; [| discriminate].
    destruct ob as [y |]; simpl; [| discriminate].
    destruct (aisle_row i (S j) (Some x) rest) as [more |] eqn:E; simpl;
      [| discriminate].
    intros [= <-]. rewrite in_app_iff, (IH _ _ E). split.
    + intros [Hhere | (-> & x' & y' & [= <-] & Hj & Hl & Hrest)].
      * destruct (booleanIntersects x y) eqn:Hm; [| destruct Hhere].
        destruct (intersect x y) as [inter |] eqn:Hi; [| destruct Hhere].
        destruct Hhere as [[= <- <- <-] | []].
        split; [reflexivity |]. exists x, y. rewrite Nat.sub_diag.
        repeat split; try assumption; lia.
      * split; [reflexivity |]. exists x, y'.
        replace (j' - j)%nat with (S (j' - S j)) by lia.
        repeat split; try apply Hrest; try assumption; lia.
    + intros (-> & x' & y' & [= <-] & Hj & Hl & Hm & Hi).
      destruct (Nat.eq_dec j' j) as [-> | Hne].
      * left. rewrite Nat.sub_diag in Hl. injection Hl as <-.
        rewrite Hm, Hi. left. reflexivity.
      * right. split; [reflexivity |]. exists x, y'.
        replace (j' - j)%nat with (S (j' - S j)) in Hl by lia.
        repeat split; try assumption; lia.
Qed.

Lemma aisle_from_In (buf : list (option Feature)) (i' j' : nat) (g : Feature) :
  forall i l,
    aisle_from i buf = JS.Ok l ->
    (In (Aisle i' j' g) l
     <-> exists x y,
           (i <= i')%nat /\ (i' < j')%nat
           /\ buf !! (i' - i)%nat = Some (Some x)
           /\ buf !! (j' - i)%nat = Some (Some y)
           /\ booleanIntersects x y = true /\ intersect x y = Some g).
Proof.
  induction buf as [| oa rest IH]; intros i l; simpl.
  - intros [= <-]. split; [intros [] | intros (x & y & _ & _ & [=] & _)].
  - destruct (aisle_row i (S i) oa rest) as [here |] eqn:E1; simpl;
      [| discriminate].
    destruct (aisle_from (S i) rest) as [more |] eqn:E2; simpl;
      [| discriminate].
    intros [= <-].
    rewrite in_app_iff, (aisle_row_In _ _ _ _ _ _ _ _ E1), (IH _ _ E2). split.
    + intros [(-> & x & y & -> & Hj & Hl & Hrest)
             | (x & y & Hi & Hj & Hx & Hy & Hrest)].
      * exists x, y. rewrite Nat.sub_diag.
        replace (j' - i)%nat with (S (j' - S i)) by lia.
        repeat split; try apply Hrest; try assumption; lia.
      * exists x, y.
        replace (i' - i)%nat with (S (i' - S i)) by lia.
        replace (j' - i)%nat with (S (j' - S i)) by lia.
        repeat split; try apply Hrest; try assumption; lia.
    + intros (x & y & Hi & Hj & Hx & Hy & Hrest).
      destruct (Nat.eq_dec i' i) as [-> | Hne].
      * left. split; [reflexivity |]. exists x, y.
        rewrite Nat.sub_diag in Hx. injection Hx as ->.
        replace (j' - i)%nat with (S (j' - S i)) in Hy by lia.
        repeat split; try apply Hrest; try assumption; lia.
      * right. exists x, y.
        replace (i' - i)%nat with (S (i' - S i)) in Hx by lia.
        replace (j' - i)%nat with (S (j' - S i)) in Hy by lia.
        repeat split; try apply Hrest; try assumption; lia.
Qed.

End AisleIssues.

(** X18.  In a run that returns, with a positive aisle width, an aisle issue
    with indices [i], [j] and geometry [g] is reported exactly when [i < j],
    turf buffers the blocks at [i] and [j] by the width, the two buffers
    intersect, and [g] is their intersection. *)
Theorem aisle_issue_iff {turf : Turf}
    (site : option Feature) (blocks : FeatureCollection)
    (minAisle boundaryClearance turnRadius : float) (issues : list Issue)
    (i j : nat) (g : Feature) :
  (0 <? minAisle)%float = true ->
  validateLayout site blocks minAisle boundaryClearance turnRadius
  = JS.Ok issues ->
  (In (Aisle i j g) issues
   <-> exists a b x y,
         (i < j)%nat /\ blocks !! i = Some a /\ blocks !! j = Some b
         /\ buffer a (minAisle / 1000)%float = Some x
         /\ buffer b (minAisle / 1000)%float = Some y
         /\ booleanIntersects x y = true /\ intersect x y = Some g).
Proof.
  intros Hpos Hrun.
  destruct (validateLayout_issues _ _ _ _ _ _ Hrun) as (aisles & Ha & _ & Hf).
  assert (Hin : In (Aisle i j g) issues <-> In (Aisle i j g) aisles).
  { rewrite <- Hf, List.filter_In. simpl. tauto. }
  rewrite Hin. clear Hin.
  unfold aisle_check in Ha. rewrite Hpos in Ha.
  rewrite (aisle_from_In _ i j g _ _ Ha), !Nat.sub_0_r.
  unfold FeatureCollection in *. split.
  - intros (x & y & _ & Hij & Hx & Hy & Hrest).
    rewrite lookup_map in Hx, Hy.
    destruct (blocks !! i) as [a |] eqn:Ea; [| discriminate].
    destruct (blocks !! j) as [b |] eqn:Eb; [| discriminate].
    cbn [option_map] in Hx, Hy. injection Hx as Hx. injection Hy as Hy.
    exists a, b, x, y. repeat split; try apply Hrest; assumption.
  - intros (a & b & x & y & Hij & Ea & Eb & Hx & Hy & Hrest).
    exists x, y. rewrite !lookup_map, Ea, Eb. cbn [option_map].
    rewrite Hx, Hy. repeat split; try apply Hrest; lia.
Qed.

(** X18 on two blocks 2 m apart at an aisle width of 2 m: their buffers share
    the strip between x = 10 and x = 12. *)
Lemma aisle_issue_iff_witness :
  let blocks := [Planar.block 0 0 10 10; Planar.block 12 0 22 10] in
  let g := Planar.rectangle (10, -2, 12, 12)%float in
  In (Aisle 0 1 g) [Aisle 0 1 g]
  <-> exists a b x y,
        (0 < 1)%nat /\ blocks !! 0%nat = Some a /\ blocks !! 1%nat = Some b
        /\ @buffer Planar.turf a (2 / 1000)%float = Some x
        /\ @buffer Planar.turf b (2 / 1000)%float = Some y
        /\ @booleanIntersects Planar.turf x y = true
        /\ @intersect Planar.turf x y = Some g.
Proof.
  intros blocks g.
  apply (@aisle_issue_iff Planar.turf (Some (Planar.square 100)) blocks 2 0 0).
  - vm_compute. reflexivity.
  - vm_compute. reflexivity.
Defined.
